(** * Kanban backend: request validation, pseudo-authentication and CRUD handlers

    A shallow embedding of [kanban/views.py].  Every handler is a function of
    the decoded request, run in a small reader/state/exception monad over the
    relational store. *)

From stdpp Require Import base strings gmap list.

Open Scope Z_scope.
Open Scope string_scope.
Open Scope list_scope.

(** ** Decoded JSON values (what [await request.json()] yields) *)

#[local] Set Warnings "-register-all".

Inductive json : Type :=
| JNull
| JBool (b : bool)
| JNum (n : Z)
| JStr (s : string)
| JArr (items : list json)
| JObj (members : list (string * json)).

(** [x is None] *)
Definition is_None (v : json) : bool :=
  match v with JNull => true | _ => false end.

(** [dict.get(key)]: the value stored under the key, [None] when absent. *)
Definition dict_get (body : gmap string json) (key : string) : json :=
  default JNull (body !! key).

(** [dict.get(field) is not None]: the field is there and is not [null]. *)
Definition present (body : gmap string json) (field : string) : bool :=
  negb (is_None (dict_get body field)).

(** [obj[key]] on a serialised record. *)
Definition json_member (key : string) (v : json) : option json :=
  match v with
  | JObj members => snd <$> List.find (fun m => String.eqb (fst m) key) members
  | _ => None
  end.

(** Whether the string [column] is the decoded value [value]: a value that is
    not a string is no primary key of the store.  What a lookup by such a
    value does is not decided here (see [resolve]). *)
Definition col_eq (column : string) (value : json) : bool :=
  match value with
  | JStr s => String.eqb column s
  | _ => false
  end.

Definition dquote : string := String (Ascii.ascii_of_nat 34) EmptyString.

(** ** Entities *)

Module User.
(** Modelled from the spec: the [User] class of [kanban.models], which is not
    part of the sources.  The attributes are those the handlers assign and
    the data model lists; the id and the password hash are strings, the
    other attributes hold the decoded value the handler assigned, and the
    timestamps are abstract instants. *)
Record t : Type := mk {
  id : string;
  name : json;
  email : json;
  password : string;
  photo : json;
  created_at : Z;
  update_at : Z
}.

(** Modelled from the spec: [User.to_dict] of [kanban.models], taken to
    serialise every attribute. *)
Definition to_dict (u : t) : json :=
  JObj [("id", JStr (id u)); ("name", name u); ("email", email u);
        ("password", JStr (password u)); ("photo", photo u);
        ("created_at", JNum (created_at u)); ("update_at", JNum (update_at u))].
End User.

Module CardCategory.
(** Modelled from the spec: the [CardCategory] class of [kanban.models], on
    the same terms as [User.t]; the owner is the id of a user. *)
Record t : Type := mk {
  id : string;
  name : json;
  color : json;
  user_id : string;
  created_at : Z;
  update_at : Z
}.

(** Modelled from the spec: [CardCategory.to_dict] of [kanban.models], taken
    to serialise every attribute. *)
Definition to_dict (c : t) : json :=
  JObj [("id", JStr (id c)); ("name", name c); ("color", color c);
        ("user_id", JStr (user_id c));
        ("created_at", JNum (created_at c)); ("update_at", JNum (update_at c))].
End CardCategory.

Module Card.
(** Modelled from the spec: the [Card] class of [kanban.models], on the same
    terms as [User.t]; [category_id] holds what the handler assigned, the id
    of a category on POST and the value of the body on PUT. *)
Record t : Type := mk {
  id : string;
  title : json;
  description : json;
  status : json;
  category_id : json;
  user_id : string;
  created_at : Z;
  update_at : Z
}.

(** Modelled from the spec: [Card.to_dict] of [kanban.models], taken to
    serialise every attribute. *)
Definition to_dict (c : t) : json :=
  JObj [("id", JStr (id c)); ("title", title c);
        ("description", description c); ("status", status c);
        ("category_id", category_id c); ("user_id", JStr (user_id c));
        ("created_at", JNum (created_at c)); ("update_at", JNum (update_at c))].
End Card.

(** ** The store, the environment and the handler monad *)

(** Modelled from the spec: [kanban.database] is not part of the sources.  The
    store is three tables of rows with [id], a string, as primary key;
    referential actions between the tables are not modelled. *)
Record DB : Type := mkDB {
  users : list User.t;
  card_categories : list CardCategory.t;
  cards : list Card.t
}.

(** What a call into a library does: it returns, or an exception of some
    kind is raised inside it. *)
Inductive outside (A : Type) : Type :=
| Returns (a : A)
| Raises (kind : string).
Arguments Returns {A} a.
Arguments Raises {A} kind.

(** What the calls out of the views do while one request is served, where
    the sources do not say: the values of [uuid4()], [datetime.now()] and
    [gensalt(8)]; what the database does with a value that is not a string
    bound in [User.id == value] ([world_where]): it finds no row, a string
    column being equal to no such value, or raises; what [session.get] does
    with an identity that is not a string, such as a list taken as the key
    tuple or a dict taken as attribute names and values ([world_ident]):
    the string the primary key is compared with, none when no row can match,
    or the exception raised; and [str.encode('utf-8')], the bytes or the
    exception raised ([world_encode]). *)
Record World : Type := mkWorld {
  world_uuid : string;
  world_now : Z;
  world_salt : string;
  world_where : json -> outside unit;
  world_ident : json -> outside (option string);
  world_encode : string -> outside string
}.

(** The request as the handlers read it: the object [await request.json()]
    decodes the body to.  A body that is not a JSON object is outside the
    model. *)
Record Request : Type := mkRequest {
  json_body : gmap string json
}.

Record Response : Type := JSONResponse {
  content : json;
  status_code : Z
}.

(** What a handler can end with instead of a response: the [HTTPException] of
    a decorator, an exception raised by an expression of the views themselves
    ([Exception]: a subscript or an attribute access that fails), or one
    raised inside a library the views call ([External]). *)
Inductive raised : Type :=
| HTTPException (status : Z) (detail : string)
| Exception (kind : string)
| External (kind : string).

Inductive result (A : Type) : Type :=
| Ok (a : A)
| Raise (e : raised).
Arguments Ok {A} a.
Arguments Raise {A} e.

Definition M (A : Type) : Type := World -> DB -> result A * DB.

Definition ret {A} (a : A) : M A := fun _ db => (Ok a, db).

Definition bind {A B} (m : M A) (f : A -> M B) : M B :=
  fun w db =>
    match m w db with
    | (Ok a, db') => f a w db'
    | (Raise e, db') => (Raise e, db')
    end.

Definition raise {A} (e : raised) : M A := fun _ db => (Raise e, db).

Declare Scope handler_scope.
Delimit Scope handler_scope with handler.
Notation "x <- m ;; k" := (bind m (fun x => k))
  (at level 100, m at next level, right associativity) : handler_scope.
Notation "m ;; k" := (bind m (fun _ => k))
  (at level 100, right associativity) : handler_scope.
Open Scope handler_scope.

(** The status line the framework answers with. *)
Definition http_status (r : result Response) : Z :=
  match r with
  | Ok resp => status_code resp
  | Raise (HTTPException status _) => status
  | Raise (Exception _) => 500
  | Raise (External _) => 500
  end.

(** *** Primitive operations *)

Definition request_json (request : Request) : M (gmap string json) :=
  ret (json_body request).

(** [body[key]] *)
Definition getitem (body : gmap string json) (key : string) : M json :=
  match body !! key with
  | Some v => ret v
  | None => raise (Exception "KeyError")
  end.

(** Attribute access on the result of a query: [None] has no attributes. *)
Definition deref {A} (o : option A) : M A :=
  match o with
  | Some a => ret a
  | None => raise (Exception "AttributeError")
  end.

(** A call into a library: its value, or the exception raised inside it. *)
Definition call {A} (o : outside A) : M A :=
  fun _ db =>
    match o with
    | Returns a => (Ok a, db)
    | Raises kind => (Raise (External kind), db)
    end.

(** [value.encode('utf-8')] exists on [str] only, and on a [str] gives the
    bytes or raises. *)
Definition encode (value : json) : M string :=
  match value with
  | JStr s => fun w db => call (world_encode w s) w db
  | _ => raise (Exception "AttributeError")
  end.

Definition uuid4 : M string := fun w db => (Ok (world_uuid w), db).
Definition datetime_now : M Z := fun w db => (Ok (world_now w), db).
Definition gensalt : M string := fun w db => (Ok (world_salt w), db).

(** The first row of a table whose primary key is the string [value]; no
    row when [value] is not a string.  The handlers look a value up through
    [lookup_User], [get_CardCategory] and [get_Card] below, which hand a
    value that is not a string to the library. *)
Definition find_User (value : json) (db : DB) : option User.t :=
  List.find (fun u => col_eq (User.id u) value) (users db).
Definition find_CardCategory (value : json) (db : DB) : option CardCategory.t :=
  List.find (fun c => col_eq (CardCategory.id c) value) (card_categories db).
Definition find_Card (value : json) (db : DB) : option Card.t :=
  List.find (fun c => col_eq (Card.id c) value) (cards db).

(** The string a primary key is compared with when the value given is
    [value]: the value itself when it is a string, what the library makes of
    it otherwise. *)
Definition resolve (library : json -> outside (option string)) (value : json)
    : outside (option string) :=
  match value with
  | JStr s => Returns (Some s)
  | _ => library value
  end.

(** A comparison that holds of no row, when the database makes it. *)
Definition no_match (o : outside unit) : outside (option string) :=
  match o with
  | Returns _ => Returns None
  | Raises kind => Raises kind
  end.

(** The row a lookup by [value] gives, through [key_of]. *)
Definition lookup {R : Type} (find_row : json -> DB -> option R)
    (key_of : outside (option string)) (db : DB) : outside (option R) :=
  match key_of with
  | Returns (Some s) => Returns (find_row (JStr s) db)
  | Returns None => Returns None
  | Raises kind => Raises kind
  end.

Definition lookup_User (w : World) (value : json) (db : DB) : outside (option User.t) :=
  lookup find_User (resolve (fun v => no_match (world_where w v)) value) db.
Definition get_CardCategory (w : World) (value : json) (db : DB)
    : outside (option CardCategory.t) :=
  lookup find_CardCategory (resolve (world_ident w) value) db.
Definition get_Card (w : World) (value : json) (db : DB) : outside (option Card.t) :=
  lookup find_Card (resolve (world_ident w) value) db.

(** [session.scalars(select(User).where(User.id == value)).first()] *)
Definition select_User_first (value : json) : M (option User.t) :=
  fun w db => call (lookup_User w value db) w db.

(** [session.get(CardCategory, value)] and [session.get(Card, value)] *)
Definition session_get_CardCategory (value : json) : M (option CardCategory.t) :=
  fun w db => call (get_CardCategory w value db) w db.
Definition session_get_Card (value : json) : M (option Card.t) :=
  fun w db => call (get_Card w value db) w db.

(** [session.scalars(select(Card).where(Card.user_id == owner)).all()] *)
Definition select_Card_all (owner : string) : M (list Card.t) :=
  fun _ db => (Ok (List.filter (fun c => String.eqb (Card.user_id c) owner) (cards db)), db).
Definition select_CardCategory_all (owner : string) : M (list CardCategory.t) :=
  fun _ db =>
    (Ok (List.filter (fun c => String.eqb (CardCategory.user_id c) owner) (card_categories db)), db).

(** [session.add(row); session.commit()]: the insert fails on a primary key
    that is already taken. *)
Definition add_User (u : User.t) : M unit :=
  fun _ db =>
    if existsb (fun r => String.eqb (User.id r) (User.id u)) (users db)
    then (Raise (External "IntegrityError"), db)
    else (Ok tt, mkDB (users db ++ [u]) (card_categories db) (cards db)).
Definition add_CardCategory (c : CardCategory.t) : M unit :=
  fun _ db =>
    if existsb (fun r => String.eqb (CardCategory.id r) (CardCategory.id c)) (card_categories db)
    then (Raise (External "IntegrityError"), db)
    else (Ok tt, mkDB (users db) (card_categories db ++ [c]) (cards db)).
Definition add_Card (c : Card.t) : M unit :=
  fun _ db =>
    if existsb (fun r => String.eqb (Card.id r) (Card.id c)) (cards db)
    then (Raise (External "IntegrityError"), db)
    else (Ok tt, mkDB (users db) (card_categories db) (cards db ++ [c])).

(** The tables after the row with the primary key of [row] was rewritten. *)
Definition put_Card (row : Card.t) (db : DB) : DB :=
  mkDB (users db) (card_categories db)
       (List.map (fun r => if String.eqb (Card.id r) (Card.id row) then row else r) (cards db)).
Definition put_CardCategory (row : CardCategory.t) (db : DB) : DB :=
  mkDB (users db)
       (List.map (fun r => if String.eqb (CardCategory.id r) (CardCategory.id row) then row else r)
                 (card_categories db))
       (cards db).
Definition put_User (row : User.t) (db : DB) : DB :=
  mkDB (List.map (fun r => if String.eqb (User.id r) (User.id row) then row else r) (users db))
       (card_categories db) (cards db).

(** The tables after the rows with the primary key of [row] were removed. *)
Definition without_Card (row : Card.t) (db : DB) : DB :=
  mkDB (users db) (card_categories db)
       (List.filter (fun r => negb (String.eqb (Card.id r) (Card.id row))) (cards db)).
Definition without_CardCategory (row : CardCategory.t) (db : DB) : DB :=
  mkDB (users db)
       (List.filter (fun r => negb (String.eqb (CardCategory.id r) (CardCategory.id row)))
                    (card_categories db))
       (cards db).

Definition without_User (row : User.t) (db : DB) : DB :=
  mkDB (List.filter (fun r => negb (String.eqb (User.id r) (User.id row))) (users db))
       (card_categories db) (cards db).

(** [session.commit()] after the attributes of a loaded row were assigned:
    the row with that primary key is rewritten. *)
Definition commit_User (u : User.t) : M unit := fun _ db => (Ok tt, put_User u db).
Definition commit_CardCategory (c : CardCategory.t) : M unit :=
  fun _ db => (Ok tt, put_CardCategory c db).
Definition commit_Card (c : Card.t) : M unit := fun _ db => (Ok tt, put_Card c db).

(** [session.delete(row); session.commit()] *)
Definition delete_User (u : User.t) : M unit := fun _ db => (Ok tt, without_User u db).
Definition delete_CardCategory (c : CardCategory.t) : M unit :=
  fun _ db => (Ok tt, without_CardCategory c db).
Definition delete_Card (c : Card.t) : M unit := fun _ db => (Ok tt, without_Card c db).

(** No two rows of a table share their primary key. *)
Definition unique_ids (db : DB) : Prop :=
  NoDup (List.map User.id (users db))
  /\ NoDup (List.map CardCategory.id (card_categories db))
  /\ NoDup (List.map Card.id (cards db)).

(** A computation that leaves the primary keys unique, however it ends. *)
Definition keeps {A : Type} (m : M A) : Prop :=
  forall w db, unique_ids db -> unique_ids (snd (m w db)).

(** ** The two decorators *)

Definition handler (A : Type) : Type := Request -> A -> M Response.

Definition required_detail (field : string) : string :=
  "required field " +:+ dquote +:+ field +:+ dquote.

(** The loop [for field in fields: if body.get(field) is None: raise ...]. *)
Fixpoint check_fields (body : gmap string json) (fields : list string) : M unit :=
  match fields with
  | [] => ret tt
  | field :: rest =>
      if is_None (dict_get body field)
      then raise (HTTPException 400 (required_detail field))
      else check_fields body rest
  end.

Definition required_fields {A} (fields : list string) (function : handler A) : handler A :=
  fun request args =>
    body <- request_json request ;;
    check_fields body fields ;;
    function request args.

Definition token_required {A} (function : handler A) : handler A :=
  fun request args =>
    body <- request_json request ;;
    if is_None (dict_get body "user_id")
    then raise (HTTPException 400 (required_detail "user_id"))
    else
      user_id <- getitem body "user_id" ;;
      user <- select_User_first user_id ;;
      match user with
      | None => raise (HTTPException 400 "invalid user_id")
      | Some _ => function request args
      end.

(** The body of the 404 answers, [{'error': '<what> not found'}]. *)
Definition not_found (what : string) : Response :=
  JSONResponse (JObj [("error", JStr (what +:+ " not found"))]) 404.

(** What PUT leaves in a row: the attributes assigned from the body, the
    optional one through [body.get], and the new [update_at]. *)
Definition updated_Card (body : gmap string json) (now : Z) (card : Card.t) : Card.t :=
  Card.mk (Card.id card) (dict_get body "title") (dict_get body "description")
          (dict_get body "status") (dict_get body "category_id")
          (Card.user_id card) (Card.created_at card) now.

Definition updated_CardCategory (body : gmap string json) (now : Z)
    (card_category : CardCategory.t) : CardCategory.t :=
  CardCategory.mk (CardCategory.id card_category) (dict_get body "name") (dict_get body "color")
                  (CardCategory.user_id card_category)
                  (CardCategory.created_at card_category) now.

Definition updated_User (body : gmap string json) (password : string) (now : Z)
    (user : User.t) : User.t :=
  User.mk (User.id user) (dict_get body "name") (dict_get body "email") password
          (dict_get body "photo") (User.created_at user) now.

(** Modelled from the spec: the column defaults of [kanban.models], which is
    not part of the sources, fill [created_at] and [update_at] of the rows
    POST inserts; both are taken to be the instant of the request.  The
    other attributes are those the handler passes to the constructor. *)
Definition new_Card (body : gmap string json) (w : World)
    (category : CardCategory.t) (user : User.t) : Card.t :=
  Card.mk (world_uuid w) (dict_get body "title") (dict_get body "description")
          (dict_get body "status") (JStr (CardCategory.id category)) (User.id user)
          (world_now w) (world_now w).

Definition new_CardCategory (body : gmap string json) (w : World) (user : User.t) : CardCategory.t :=
  CardCategory.mk (world_uuid w) (dict_get body "name") (dict_get body "color") (User.id user)
                  (world_now w) (world_now w).

Definition new_User (body : gmap string json) (w : World) (password : string) : User.t :=
  User.mk (world_uuid w) (dict_get body "name") (dict_get body "email") password
          (dict_get body "photo") (world_now w) (world_now w).

(** ** The endpoints of [init_app] *)

Section Views.

(** [bcrypt.hashpw], on the bytes of the password and the salt: the hash, or
    the exception raised. *)
Variable hashpw : string -> string -> outside string.

Definition get_user_fn : handler unit := fun request _ =>
  body <- request_json request ;;
  user_id <- getitem body "user_id" ;;
  user <- select_User_first user_id ;;
  user <- deref user ;;
  ret (JSONResponse (User.to_dict user) 200).

Definition get_user : handler unit := token_required get_user_fn.

Definition create_user_fn : handler unit := fun request _ =>
  body <- request_json request ;;
  salt <- gensalt ;;
  plain <- getitem body "password" ;;
  plain <- encode plain ;;
  password <- call (hashpw plain salt) ;;
  user_uuid <- uuid4 ;;
  name <- getitem body "name" ;;
  email <- getitem body "email" ;;
  now <- datetime_now ;;
  let user := User.mk user_uuid name email password (dict_get body "photo") now now in
  add_User user ;;
  ret (JSONResponse (User.to_dict user) 200).

Definition create_user : handler unit :=
  required_fields ["name"; "email"; "password"] create_user_fn.

Definition update_user_fn : handler unit := fun request _ =>
  body <- request_json request ;;
  user_id <- getitem body "user_id" ;;
  user <- select_User_first user_id ;;
  salt <- gensalt ;;
  plain <- getitem body "password" ;;
  plain <- encode plain ;;
  password <- call (hashpw plain salt) ;;
  user <- deref user ;;
  name <- getitem body "name" ;;
  email <- getitem body "email" ;;
  now <- datetime_now ;;
  let user := User.mk (User.id user) name email password (dict_get body "photo")
                      (User.created_at user) now in
  commit_User user ;;
  ret (JSONResponse (User.to_dict user) 200).

Definition update_user : handler unit :=
  token_required (required_fields ["name"; "password"; "email"] update_user_fn).

Definition delete_user_fn : handler unit := fun request _ =>
  body <- request_json request ;;
  user_id <- getitem body "user_id" ;;
  user <- select_User_first user_id ;;
  user <- deref user ;;
  delete_User user ;;
  ret (JSONResponse (User.to_dict user) 200).

Definition delete_user : handler unit := token_required delete_user_fn.

Definition get_cards_fn : handler unit := fun request _ =>
  body <- request_json request ;;
  user_id <- getitem body "user_id" ;;
  user <- select_User_first user_id ;;
  user <- deref user ;;
  rows <- select_Card_all (User.id user) ;;
  ret (JSONResponse (JArr (List.map Card.to_dict rows)) 200).

Definition get_cards : handler unit := token_required get_cards_fn.

Definition get_card_fn : handler string := fun request card_id =>
  body <- request_json request ;;
  user_id <- getitem body "user_id" ;;
  user <- select_User_first user_id ;;
  card <- session_get_Card (JStr card_id) ;;
  match card with
  | Some card =>
      user <- deref user ;;
      if String.eqb (Card.user_id card) (User.id user)
      then ret (JSONResponse (Card.to_dict card) 200)
      else ret (JSONResponse (JObj [("error", JStr "card not found")]) 404)
  | None => ret (JSONResponse (JObj [("error", JStr "card not found")]) 404)
  end.

Definition get_card : handler string := token_required get_card_fn.

Definition create_card_fn : handler unit := fun request _ =>
  body <- request_json request ;;
  user_id <- getitem body "user_id" ;;
  user <- select_User_first user_id ;;
  category_id <- getitem body "category_id" ;;
  category <- session_get_CardCategory category_id ;;
  match category with
  | None => ret (JSONResponse (JObj [("error", JStr "invalid category_id")]) 400)
  | Some category =>
      status <- getitem body "status" ;;
      title <- getitem body "title" ;;
      card_uuid <- uuid4 ;;
      user <- deref user ;;
      now <- datetime_now ;;
      let card := Card.mk card_uuid title (dict_get body "description") status
                          (JStr (CardCategory.id category)) (User.id user) now now in
      add_Card card ;;
      ret (JSONResponse (Card.to_dict card) 200)
  end.

Definition create_card : handler unit :=
  token_required (required_fields ["title"; "category_id"; "status"] create_card_fn).

Definition update_card_fn : handler unit := fun request _ =>
  body <- request_json request ;;
  card_id <- getitem body "id" ;;
  card <- session_get_Card card_id ;;
  match card with
  | Some card =>
      status <- getitem body "status" ;;
      title <- getitem body "title" ;;
      now <- datetime_now ;;
      category_id <- getitem body "category_id" ;;
      let card := Card.mk (Card.id card) title (dict_get body "description") status
                          category_id (Card.user_id card) (Card.created_at card) now in
      commit_Card card ;;
      ret (JSONResponse (Card.to_dict card) 200)
  | None => ret (JSONResponse (JObj [("error", JStr "card not found")]) 404)
  end.

Definition update_card : handler unit :=
  token_required (required_fields ["id"; "status"; "title"; "category_id"] update_card_fn).

Definition delete_card_fn : handler unit := fun request _ =>
  body <- request_json request ;;
  card_id <- getitem body "id" ;;
  card <- session_get_Card card_id ;;
  match card with
  | None => ret (JSONResponse (JObj [("error", JStr "card not found")]) 404)
  | Some card =>
      delete_Card card ;;
      ret (JSONResponse (Card.to_dict card) 200)
  end.

Definition delete_card : handler unit :=
  token_required (required_fields ["id"] delete_card_fn).

Definition get_cards_categories_fn : handler unit := fun request _ =>
  body <- request_json request ;;
  user_id <- getitem body "user_id" ;;
  user <- select_User_first user_id ;;
  user <- deref user ;;
  rows <- select_CardCategory_all (User.id user) ;;
  ret (JSONResponse (JArr (List.map CardCategory.to_dict rows)) 200).

Definition get_cards_categories : handler unit := token_required get_cards_categories_fn.

Definition get_card_category_fn : handler string := fun request card_category_id =>
  body <- request_json request ;;
  user_id <- getitem body "user_id" ;;
  user <- select_User_first user_id ;;
  card_category <- session_get_CardCategory (JStr card_category_id) ;;
  match card_category with
  | Some card_category =>
      user <- deref user ;;
      if String.eqb (CardCategory.user_id card_category) (User.id user)
      then ret (JSONResponse (CardCategory.to_dict card_category) 200)
      else ret (JSONResponse (JObj [("error", JStr "card category not found")]) 404)
  | None => ret (JSONResponse (JObj [("error", JStr "card category not found")]) 404)
  end.

Definition get_card_category : handler string := token_required get_card_category_fn.

Definition create_card_category_fn : handler unit := fun request _ =>
  body <- request_json request ;;
  user_id <- getitem body "user_id" ;;
  user <- select_User_first user_id ;;
  name <- getitem body "name" ;;
  color <- getitem body "color" ;;
  user <- deref user ;;
  category_uuid <- uuid4 ;;
  now <- datetime_now ;;
  let card_category := CardCategory.mk category_uuid name color (User.id user) now now in
  add_CardCategory card_category ;;
  ret (JSONResponse (CardCategory.to_dict card_category) 200).

Definition create_card_category : handler unit :=
  token_required (required_fields ["name"; "color"] create_card_category_fn).

Definition update_card_category_fn : handler unit := fun request _ =>
  body <- request_json request ;;
  category_id <- getitem body "category_id" ;;
  card_category <- session_get_CardCategory category_id ;;
  match card_category with
  | Some card_category =>
      name <- getitem body "name" ;;
      color <- getitem body "color" ;;
      now <- datetime_now ;;
      let card_category :=
        CardCategory.mk (CardCategory.id card_category) name color
                        (CardCategory.user_id card_category)
                        (CardCategory.created_at card_category) now in
      commit_CardCategory card_category ;;
      ret (JSONResponse (CardCategory.to_dict card_category) 200)
  | None => ret (JSONResponse (JObj [("error", JStr "card category not found")]) 404)
  end.

Definition update_card_category : handler unit :=
  token_required (required_fields ["category_id"; "name"; "color"] update_card_category_fn).

Definition delete_card_category_fn : handler unit := fun request _ =>
  body <- request_json request ;;
  category_id <- getitem body "category_id" ;;
  card_category <- session_get_CardCategory category_id ;;
  match card_category with
  | None => ret (JSONResponse (JObj [("error", JStr "card category not found")]) 404)
  | Some card_category =>
      delete_CardCategory card_category ;;
      ret (JSONResponse (CardCategory.to_dict card_category) 200)
  end.

Definition delete_card_category : handler unit :=
  token_required (required_fields ["category_id"] delete_card_category_fn).

(** The routes registered on the application. *)
Inductive endpoint : Type :=
| GET_user | POST_user | PUT_user | DELETE_user
| GET_card | GET_card_id (card_id : string) | POST_card | PUT_card | DELETE_card
| GET_card_category | GET_card_category_id (card_category_id : string)
| POST_card_category | PUT_card_category | DELETE_card_category.

Definition app (e : endpoint) (request : Request) : M Response :=
  match e with
  | GET_user => get_user request tt
  | POST_user => create_user request tt
  | PUT_user => update_user request tt
  | DELETE_user => delete_user request tt
  | GET_card => get_cards request tt
  | GET_card_id card_id => get_card request card_id
  | POST_card => create_card request tt
  | PUT_card => update_card request tt
  | DELETE_card => delete_card request tt
  | GET_card_category => get_cards_categories request tt
  | GET_card_category_id card_category_id => get_card_category request card_category_id
  | POST_card_category => create_card_category request tt
  | PUT_card_category => update_card_category request tt
  | DELETE_card_category => delete_card_category request tt
  end.


End Views.

(** ** DELETE /card-category read off DELETE /card

    The handler one gets from [delete_card] by putting the category table in
    the place of the card table, the target still named by the body field
    [id]; it is compared with [delete_card_category] below. *)

Module AnalogousToCard.
Definition delete_card_category_fn : handler unit := fun request _ =>
  body <- request_json request ;;
  category_id <- getitem body "id" ;;
  card_category <- session_get_CardCategory category_id ;;
  match card_category with
  | None => ret (not_found "card category")
  | Some card_category =>
      delete_CardCategory card_category ;;
      ret (JSONResponse (CardCategory.to_dict card_category) 200)
  end.

Definition delete_card_category : handler unit :=
  token_required (required_fields ["id"] delete_card_category_fn).
End AnalogousToCard.

(** ** Sample data on which the statements below are evaluated *)

Module Sample.
(** A stand-in for [bcrypt.hashpw], enough to run the handlers: the salt,
    a separator and the text. *)
Definition hashpw (plain salt : string) : outside string :=
  Returns (salt +:+ "$" +:+ plain).

(** Libraries to run the handlers with: a database that refuses a bound
    value that is not a string; a [session.get] that takes a list of one
    string as the key tuple and an object with the one member [id] as the
    key by attribute, and refuses the rest; and a codec that returns the
    text. *)
Definition where_ (value : json) : outside unit := Raises "ProgrammingError".
Definition ident (value : json) : outside (option string) :=
  match value with
  | JArr [JStr s] => Returns (Some s)
  | JObj [(attribute, JStr s)] =>
      if String.eqb attribute "id" then Returns (Some s) else Raises "InvalidRequestError"
  | JArr _ | JObj _ => Raises "InvalidRequestError"
  | _ => Raises "ProgrammingError"
  end.
Definition encode_utf8 (s : string) : outside string := Returns s.

Definition ann : User.t := User.mk "u-ann" (JStr "Ann") (JStr "ann@example.org") "salt$pw-ann" JNull 1 1.
Definition bob : User.t := User.mk "u-bob" (JStr "Bob") (JStr "bob@example.org") "salt$pw-bob" JNull 2 2.
Definition todo : CardCategory.t := CardCategory.mk "k-todo" (JStr "To do") (JStr "red") "u-ann" 3 3.
Definition task : Card.t :=
  Card.mk "c-task" (JStr "Write") (JStr "first draft") (JStr "open") (JStr "k-todo") "u-ann" 4 4.

Definition db : DB := mkDB [ann; bob] [todo] [task].
Definition world : World := mkWorld "fresh-id" 9 "salt" where_ ident encode_utf8.

Definition body (fields : list (string * json)) : Request :=
  mkRequest (list_to_map fields).

(** Bob asks for Ann's card and category. *)
Definition as_bob : Request := body [("user_id", JStr "u-bob")].
Definition as_ann : Request := body [("user_id", JStr "u-ann")].

(** Bob rewrites Ann's card, leaving the description out. *)
Definition put_card : Request :=
  body [("user_id", JStr "u-bob"); ("id", JStr "c-task"); ("status", JStr "done");
        ("title", JStr "Rewrite"); ("category_id", JStr "k-todo")].

(** The same with nothing but the ids. *)
Definition put_card_ids_only : Request :=
  body [("user_id", JStr "u-bob"); ("id", JStr "c-task")].

Definition delete_card : Request :=
  body [("user_id", JStr "u-bob"); ("id", JStr "c-task")].

Definition put_category : Request :=
  body [("user_id", JStr "u-bob"); ("category_id", JStr "k-todo");
        ("name", JStr "Doing"); ("color", JStr "blue")].

Definition delete_category : Request :=
  body [("user_id", JStr "u-bob"); ("category_id", JStr "k-todo")].


Definition post_card : Request :=
  body [("user_id", JStr "u-ann"); ("title", JStr "Review"); ("status", JStr "open");
        ("category_id", JStr "k-todo")].



Definition post_user_numeric_password : Request :=
  body [("name", JStr "Cy"); ("email", JStr "cy@example.org"); ("password", JNum 1234)].

Definition put_user : Request :=
  body [("user_id", JStr "u-bob"); ("name", JStr "Robert"); ("email", JStr "rob@example.org");
        ("password", JStr "hunter2")].
End Sample.

(** ** Reading and writing routes *)

(** The routes registered with [app.get]. *)
Definition is_GET (e : endpoint) : bool :=
  match e with
  | GET_user | GET_card | GET_card_id _ | GET_card_category | GET_card_category_id _ => true
  | _ => false
  end.

(** Whether a decoded value is a [str]. *)
Definition is_str (v : json) : bool :=
  match v with JStr _ => true | _ => false end.

(** The routes that address one card or one category by its id. *)
Definition by_id (e : endpoint) : bool :=
  match e with
  | GET_card_id _ | PUT_card | DELETE_card
  | GET_card_category_id _ | PUT_card_category | DELETE_card_category => true
  | _ => false
  end.

(** The stores a route can leave behind a 200: the store as it was after a
    GET; after a POST the table of the route with one row appended, built
    from the body under the unused generated id; after a PUT the rows with
    the primary key of the target rewritten with the values of the body;
    after a DELETE the rows with the primary key of the target removed. *)
Definition writes (hashpw : string -> string -> outside string) (e : endpoint)
    (request : Request) (w : World) (db db' : DB) : Prop :=
  match e with
  | GET_user | GET_card | GET_card_id _ | GET_card_category | GET_card_category_id _ =>
      db' = db
  | POST_user =>
      exists plain bytes hash,
        dict_get (json_body request) "password" = JStr plain
        /\ world_encode w plain = Returns bytes
        /\ hashpw bytes (world_salt w) = Returns hash
        /\ find_User (JStr (world_uuid w)) db = None
        /\ db' = mkDB (users db ++ [new_User (json_body request) w hash])
                      (card_categories db) (cards db)
  | PUT_user =>
      exists hash u,
        lookup_User w (dict_get (json_body request) "user_id") db = Returns (Some u)
        /\ db' = put_User (updated_User (json_body request) hash (world_now w) u) db
  | DELETE_user =>
      exists u,
        lookup_User w (dict_get (json_body request) "user_id") db = Returns (Some u)
        /\ db' = without_User u db
  | POST_card =>
      exists u category,
        lookup_User w (dict_get (json_body request) "user_id") db = Returns (Some u)
        /\ get_CardCategory w (dict_get (json_body request) "category_id") db
           = Returns (Some category)
        /\ find_Card (JStr (world_uuid w)) db = None
        /\ db' = mkDB (users db) (card_categories db)
                      (cards db ++ [new_Card (json_body request) w category u])
  | PUT_card =>
      exists card,
        get_Card w (dict_get (json_body request) "id") db = Returns (Some card)
        /\ db' = put_Card (updated_Card (json_body request) (world_now w) card) db
  | DELETE_card =>
      exists card,
        get_Card w (dict_get (json_body request) "id") db = Returns (Some card)
        /\ db' = without_Card card db
  | POST_card_category =>
      exists u,
        lookup_User w (dict_get (json_body request) "user_id") db = Returns (Some u)
        /\ find_CardCategory (JStr (world_uuid w)) db = None
        /\ db' = mkDB (users db)
                      (card_categories db ++ [new_CardCategory (json_body request) w u])
                      (cards db)
  | PUT_card_category =>
      exists c,
        get_CardCategory w (dict_get (json_body request) "category_id") db = Returns (Some c)
        /\ db' = put_CardCategory (updated_CardCategory (json_body request) (world_now w) c) db
  | DELETE_card_category =>
      exists c,
        get_CardCategory w (dict_get (json_body request) "category_id") db = Returns (Some c)
        /\ db' = without_CardCategory c db
  end.

(** The store after a sequence of requests, each with the route it is sent
    to and what the outside world returns while it is served. *)
Fixpoint serve (hashpw : string -> string -> outside string)
    (requests : list (endpoint * Request * World)) (db : DB) : DB :=
  match requests with
  | [] => db
  | (e, request, w) :: rest => serve hashpw rest (snd (app hashpw e request w db))
  end.

(** ** More requests on the sample data *)

Module Scenario.
Definition as_nobody : Request := Sample.body [("user_id", JStr "u-zed")].
Definition empty : Request := Sample.body [].

(** A second card of Ann's and a card of Bob's next to the sample one. *)
Definition errand : Card.t :=
  Card.mk "c-errand" (JStr "Shop") JNull (JStr "open") (JStr "k-todo") "u-bob" 5 5.
Definition essay : Card.t :=
  Card.mk "c-essay" (JStr "Essay") JNull (JStr "open") (JStr "k-todo") "u-ann" 6 6.
Definition later : CardCategory.t :=
  CardCategory.mk "k-later" (JStr "Later") (JStr "grey") "u-bob" 5 5.
Definition board : DB :=
  mkDB [Sample.ann; Sample.bob] [Sample.todo; later] [Sample.task; errand; essay].

Definition delete_user : Request := Sample.body [("user_id", JStr "u-bob")].

Definition put_card_by_owner : Request :=
  Sample.body [("user_id", JStr "u-ann"); ("id", JStr "c-task"); ("status", JStr "done");
               ("title", JStr "Rewrite"); ("category_id", JStr "k-todo")].

(** Ids that are not strings: the card named by a list of one id, the
    category by an object, the user by a number. *)
Definition put_card_by_key_tuple : Request :=
  Sample.body [("user_id", JStr "u-ann"); ("id", JArr [JStr "c-task"]); ("status", JStr "done");
               ("title", JStr "Rewrite"); ("category_id", JStr "k-todo")].
Definition post_card_by_attribute : Request :=
  Sample.body [("user_id", JStr "u-ann"); ("title", JStr "Review"); ("status", JStr "open");
               ("category_id", JObj [("id", JStr "k-todo")])].
Definition as_a_number : Request := Sample.body [("user_id", JNum 7)].
End Scenario.

(** * Properties *)

(** ** Presence of a field in a decoded body *)

Lemma present_true body field :
  present body field = true <-> exists v, body !! field = Some v /\ v <> JNull.
Proof.
  unfold present, dict_get. destruct (body !! field) as [v|]; simpl.
  - destruct v; simpl; split; intros H; try done; try (eexists; split; [reflexivity|discriminate]).
    destruct H as (v & Hv & Hn). congruence.
  - split; [discriminate|]. intros (v & Hv & _). discriminate.
Qed.

Lemma present_false body field :
  present body field = false <-> body !! field = None \/ body !! field = Some JNull.
Proof.
  unfold present, dict_get. destruct (body !! field) as [v|]; simpl.
  - destruct v; simpl; split; intros H; try done; try (right; reflexivity);
      destruct H as [H|H]; congruence.
  - split; [left; reflexivity | reflexivity].
Qed.

Lemma present_lookup body field :
  present body field = true -> body !! field = Some (dict_get body field).
Proof.
  unfold present, dict_get. destruct (body !! field); simpl; [reflexivity | discriminate].
Qed.

Lemma present_getitem body field w db :
  present body field = true ->
  getitem body field w db = (Ok (dict_get body field), db).
Proof.
  unfold present, getitem, dict_get. destruct (body !! field); simpl; [reflexivity | discriminate].
Qed.

(** ** Running the decorators *)

Lemma check_fields_all_present body fields w db :
  forallb (present body) fields = true ->
  check_fields body fields w db = (Ok tt, db).
Proof.
  induction fields as [|field rest IH]; simpl; [reflexivity|].
  intros H. apply andb_prop in H as [Hf Hrest].
  unfold present in Hf. apply negb_true_iff in Hf. rewrite Hf. exact (IH Hrest).
Qed.

Lemma check_fields_first_missing body pre field post w db :
  forallb (present body) pre = true ->
  present body field = false ->
  check_fields body (pre ++ field :: post) w db =
    (Raise (HTTPException 400 (required_detail field)), db).
Proof.
  intros Hpre Hfield. induction pre as [|p pre IH]; simpl in *.
  - unfold present in Hfield. apply negb_false_iff in Hfield. rewrite Hfield. reflexivity.
  - apply andb_prop in Hpre as [Hp Hpre].
    unfold present in Hp. apply negb_true_iff in Hp. rewrite Hp. exact (IH Hpre).
Qed.

Lemma first_missing_split body fields :
  forallb (present body) fields = false ->
  exists pre field post,
    fields = pre ++ field :: post /\
    forallb (present body) pre = true /\ present body field = false.
Proof.
  induction fields as [|f rest IH]; simpl; [discriminate|].
  destruct (present body f) eqn:Hf; simpl.
  - intros H. destruct (IH H) as (pre & field & post & -> & Hpre & Hfield).
    exists (f :: pre), field, post. simpl. rewrite Hf. auto.
  - intros _. exists [], f, rest. auto.
Qed.

Lemma required_fields_pass {A} fields (function : handler A) request args w db :
  forallb (present (json_body request)) fields = true ->
  required_fields fields function request args w db = function request args w db.
Proof.
  intros H. unfold required_fields, bind, request_json, ret.
  rewrite (check_fields_all_present _ _ w db H). reflexivity.
Qed.

Lemma required_fields_fail {A} pre field post (function : handler A) request args w db :
  forallb (present (json_body request)) pre = true ->
  present (json_body request) field = false ->
  required_fields (pre ++ field :: post) function request args w db =
    (Raise (HTTPException 400 (required_detail field)), db).
Proof.
  intros Hpre Hfield. unfold required_fields, bind, request_json, ret.
  rewrite (check_fields_first_missing _ _ _ _ w db Hpre Hfield). reflexivity.
Qed.

Lemma lookup_User_str w s db :
  lookup_User w (JStr s) db = Returns (find_User (JStr s) db).
Proof. reflexivity. Qed.

Lemma get_Card_str w s db : get_Card w (JStr s) db = Returns (find_Card (JStr s) db).
Proof. reflexivity. Qed.

Lemma get_CardCategory_str w s db :
  get_CardCategory w (JStr s) db = Returns (find_CardCategory (JStr s) db).
Proof. reflexivity. Qed.

Lemma token_required_run {A} (function : handler A) request args w db :
  token_required function request args w db =
    if present (json_body request) "user_id"
    then match lookup_User w (dict_get (json_body request) "user_id") db with
         | Returns (Some _) => function request args w db
         | Returns None => (Raise (HTTPException 400 "invalid user_id"), db)
         | Raises kind => (Raise (External kind), db)
         end
    else (Raise (HTTPException 400 (required_detail "user_id")), db).
Proof.
  unfold token_required, bind, request_json, ret, present.
  destruct (is_None (dict_get (json_body request) "user_id")) eqn:Hn; simpl; [reflexivity|].
  rewrite present_getitem by (unfold present; rewrite Hn; reflexivity).
  unfold select_User_first, call.
  destruct (lookup_User w _ db) as [[u|]|kind]; reflexivity.
Qed.

Lemma find_User_authenticates body db u :
  find_User (dict_get body "user_id") db = Some u ->
  present body "user_id" = true /\ dict_get body "user_id" = JStr (User.id u).
Proof.
  unfold find_User, present. intros H. apply find_some in H as [_ H].
  destruct (dict_get body "user_id"); simpl in *; try discriminate.
  apply String.eqb_eq in H. subst. auto.
Qed.

Lemma lookup_User_found w v db u :
  find_User v db = Some u -> lookup_User w v db = Returns (Some u).
Proof.
  intros H. assert (Hv : exists s, v = JStr s).
  { unfold find_User in H. apply find_some in H as [_ H].
    destruct v; simpl in H; try discriminate. eauto. }
  destruct Hv as [s ->]. rewrite lookup_User_str, H. reflexivity.
Qed.

Lemma get_Card_found w v db card :
  find_Card v db = Some card -> get_Card w v db = Returns (Some card).
Proof.
  intros H. assert (Hv : exists s, v = JStr s).
  { unfold find_Card in H. apply find_some in H as [_ H].
    destruct v; simpl in H; try discriminate. eauto. }
  destruct Hv as [s ->]. rewrite get_Card_str, H. reflexivity.
Qed.

Lemma get_CardCategory_found w v db c :
  find_CardCategory v db = Some c -> get_CardCategory w v db = Returns (Some c).
Proof.
  intros H. assert (Hv : exists s, v = JStr s).
  { unfold find_CardCategory in H. apply find_some in H as [_ H].
    destruct v; simpl in H; try discriminate. eauto. }
  destruct Hv as [s ->]. rewrite get_CardCategory_str, H. reflexivity.
Qed.

Lemma lookup_Some {R} (find_row : json -> DB -> option R) key_of db (r : R) :
  lookup find_row key_of db = Returns (Some r) ->
  exists s, key_of = Returns (Some s) /\ find_row (JStr s) db = Some r.
Proof.
  unfold lookup. destruct key_of as [[s|]|kind]; try discriminate.
  intros [= H]. eauto.
Qed.


Lemma token_required_admits {A} (function : handler A) request args w db u :
  present (json_body request) "user_id" = true ->
  lookup_User w (dict_get (json_body request) "user_id") db = Returns (Some u) ->
  token_required function request args w db = function request args w db.
Proof. intros Hp H. rewrite token_required_run, Hp, H. reflexivity. Qed.

(** ** Lookups in a table keyed by a string column *)

Section Table.
Context {R : Type} (key : R -> string).

Lemma find_key (v : json) (rows : list R) (r : R) :
  List.find (fun x => col_eq (key x) v) rows = Some r ->
  v = JStr (key r) /\ In r rows.
Proof.
  intros H. apply find_some in H as [Hin H]. split; [|exact Hin].
  destruct v; simpl in H; try discriminate.
  apply String.eqb_eq in H. congruence.
Qed.

Lemma existsb_key_find (k : string) (rows : list R) :
  existsb (fun x => String.eqb (key x) k) rows = false <->
  List.find (fun x => col_eq (key x) (JStr k)) rows = None.
Proof.
  induction rows as [|x rows IH]; simpl; [tauto|].
  destruct (String.eqb (key x) k); simpl; [split; discriminate | exact IH].
Qed.


Lemma find_added_frame (v : json) (x r : R) (rows : list R) :
  List.find (fun r => col_eq (key r) v) rows = Some r ->
  List.find (fun r => col_eq (key r) v) (rows ++ [x]) = Some r.
Proof.
  induction rows as [|y rows IH]; simpl; [discriminate|].
  destruct (col_eq (key y) v); [trivial | exact IH].
Qed.

Lemma find_replaced (v : json) (x' : R) (rows : list R) :
  let put := fun r => if String.eqb (key r) (key x') then x' else r in
  List.find (fun r => col_eq (key r) v) (List.map put rows) =
  option_map put (List.find (fun r => col_eq (key r) v) rows).
Proof.
  intros put. induction rows as [|y rows IH]; simpl; [reflexivity|].
  assert (Hk : key (put y) = key y).
  { unfold put. destruct (String.eqb (key y) (key x')) eqn:E; [|reflexivity].
    apply String.eqb_eq in E. congruence. }
  rewrite Hk. destruct (col_eq (key y) v); [reflexivity | exact IH].
Qed.

Lemma find_deleted (k : string) (rows : list R) :
  List.find (fun r => col_eq (key r) (JStr k))
            (List.filter (fun r => negb (String.eqb (key r) k)) rows) = None.
Proof.
  induction rows as [|y rows IH]; simpl; [reflexivity|].
  destruct (String.eqb (key y) k) eqn:E; simpl; [exact IH|].
  rewrite E. exact IH.
Qed.

Lemma find_deleted_frame (v : json) (k : string) (rows : list R) :
  v <> JStr k ->
  List.find (fun r => col_eq (key r) v)
            (List.filter (fun r => negb (String.eqb (key r) k)) rows) =
  List.find (fun r => col_eq (key r) v) rows.
Proof.
  intros Hv. induction rows as [|y rows IH]; simpl; [reflexivity|].
  destruct (String.eqb (key y) k) eqn:E; simpl.
  - apply String.eqb_eq in E. subst k.
    destruct (col_eq (key y) v) eqn:C; [|exact IH].
    destruct v; simpl in C; try discriminate.
    apply String.eqb_eq in C. congruence.
  - destruct (col_eq (key y) v); [reflexivity | exact IH].
Qed.
Lemma find_unique (rows : list R) (r : R) :
  NoDup (List.map key rows) -> In r rows ->
  List.find (fun x => col_eq (key x) (JStr (key r))) rows = Some r.
Proof.
  induction rows as [|y rows IH]; simpl; [tauto|].
  intros Hnd [->|Hin].
  - rewrite String.eqb_refl. reflexivity.
  - apply NoDup_cons in Hnd as [Hy Hnd].
    destruct (String.eqb (key y) (key r)) eqn:E; [|exact (IH Hnd Hin)].
    apply String.eqb_eq in E. exfalso. apply Hy. rewrite E.
    apply list_elem_of_In, in_map, Hin.
Qed.

Lemma NoDup_added (x : R) (rows : list R) :
  existsb (fun r => String.eqb (key r) (key x)) rows = false ->
  NoDup (List.map key rows) -> NoDup (List.map key (rows ++ [x])).
Proof.
  intros Hx Hnd. rewrite map_app. simpl. apply NoDup_app. split; [exact Hnd|]. split.
  - intros k Hk Hk'. apply list_elem_of_singleton in Hk'. subst k.
    apply list_elem_of_In, in_map_iff in Hk as (r & Hr & Hin).
    assert (Ht : existsb (fun r => String.eqb (key r) (key x)) rows = true)
      by (apply existsb_exists; exists r; split; [exact Hin | apply String.eqb_eq, Hr]).
    congruence.
  - apply NoDup_singleton.
Qed.

Lemma map_key_replaced (x' : R) (rows : list R) :
  List.map key (List.map (fun r => if String.eqb (key r) (key x') then x' else r) rows) =
  List.map key rows.
Proof.
  induction rows as [|y rows IH]; simpl; [reflexivity|]. f_equal; [|exact IH].
  destruct (String.eqb (key y) (key x')) eqn:E; [|reflexivity].
  apply String.eqb_eq in E. congruence.
Qed.

Lemma NoDup_deleted (k : string) (rows : list R) :
  NoDup (List.map key rows) ->
  NoDup (List.map key (List.filter (fun r => negb (String.eqb (key r) k)) rows)).
Proof.
  induction rows as [|y rows IH]; simpl; [trivial|].
  intros Hnd. apply NoDup_cons in Hnd as [Hy Hnd].
  destruct (negb (String.eqb (key y) k)); simpl; [|exact (IH Hnd)].
  apply NoDup_cons. split; [|exact (IH Hnd)].
  intros Hin. apply Hy. apply list_elem_of_In, in_map_iff in Hin as (r & Hr & Hin).
  apply filter_In in Hin as [Hin _]. rewrite <- Hr. apply list_elem_of_In, in_map, Hin.
Qed.
End Table.

(** ** Primary keys stay unique *)

Lemma keeps_ret {A} (a : A) : keeps (ret a).
Proof. intros w db H. exact H. Qed.

Lemma keeps_raise {A} (e : raised) : keeps (@raise A e).
Proof. intros w db H. exact H. Qed.

Lemma keeps_bind {A B} (m : M A) (f : A -> M B) :
  keeps m -> (forall a, keeps (f a)) -> keeps (bind m f).
Proof.
  intros Hm Hf w db H. unfold bind. specialize (Hm w db H).
  destruct (m w db) as [[a|e] db']; simpl in *; [apply Hf, Hm | exact Hm].
Qed.

Lemma keeps_read {A} (g : World -> DB -> A) : keeps (fun w db => (Ok (g w db), db)).
Proof. intros w db H. exact H. Qed.

Lemma keeps_getitem body key : keeps (getitem body key).
Proof. unfold getitem. destruct (body !! key); [apply keeps_ret | apply keeps_raise]. Qed.

Lemma keeps_deref {A} (o : option A) : keeps (deref o).
Proof. destruct o; [apply keeps_ret | apply keeps_raise]. Qed.

Lemma keeps_call {A} (o : outside A) : keeps (call o).
Proof. intros w db H. unfold call. destruct o; exact H. Qed.

Lemma keeps_call_read {A} (g : World -> DB -> outside A) :
  keeps (fun w db => call (g w db) w db).
Proof. intros w db H. unfold call. destruct (g w db); exact H. Qed.

Lemma keeps_encode v : keeps (encode v).
Proof. destruct v; first [apply keeps_raise | apply keeps_call_read]. Qed.

Lemma keeps_select_User_first v : keeps (select_User_first v).
Proof. apply keeps_call_read. Qed.

Lemma keeps_session_get_Card v : keeps (session_get_Card v).
Proof. apply keeps_call_read. Qed.

Lemma keeps_session_get_CardCategory v : keeps (session_get_CardCategory v).
Proof. apply keeps_call_read. Qed.

Lemma keeps_check_fields body fields : keeps (check_fields body fields).
Proof.
  induction fields as [|field rest IH]; simpl; [apply keeps_ret|].
  destruct (is_None (dict_get body field)); [apply keeps_raise | exact IH].
Qed.

Lemma keeps_add_User u : keeps (add_User u).
Proof.
  intros w db (Hu & Hk & Hc). unfold add_User, unique_ids.
  destruct (existsb _ (users db)) eqn:E; simpl; [tauto|].
  split; [|tauto]. apply (NoDup_added User.id); assumption.
Qed.

Lemma keeps_add_CardCategory c : keeps (add_CardCategory c).
Proof.
  intros w db (Hu & Hk & Hc). unfold add_CardCategory, unique_ids.
  destruct (existsb _ (card_categories db)) eqn:E; simpl; [tauto|].
  split; [tauto|]. split; [|tauto]. apply (NoDup_added CardCategory.id); assumption.
Qed.

Lemma keeps_add_Card c : keeps (add_Card c).
Proof.
  intros w db (Hu & Hk & Hc). unfold add_Card, unique_ids.
  destruct (existsb _ (cards db)) eqn:E; simpl; [tauto|].
  split; [tauto|]. split; [tauto|]. apply (NoDup_added Card.id); assumption.
Qed.

Lemma keeps_commit_User u : keeps (commit_User u).
Proof.
  intros w db (Hu & Hk & Hc). unfold unique_ids. simpl. split; [|tauto].
  rewrite (map_key_replaced User.id). exact Hu.
Qed.

Lemma keeps_commit_CardCategory c : keeps (commit_CardCategory c).
Proof.
  intros w db (Hu & Hk & Hc). unfold unique_ids. simpl. split; [tauto|]. split; [|tauto].
  rewrite (map_key_replaced CardCategory.id). exact Hk.
Qed.

Lemma keeps_commit_Card c : keeps (commit_Card c).
Proof.
  intros w db (Hu & Hk & Hc). unfold unique_ids. simpl. split; [tauto|]. split; [tauto|].
  rewrite (map_key_replaced Card.id). exact Hc.
Qed.

Lemma keeps_delete_User u : keeps (delete_User u).
Proof.
  intros w db (Hu & Hk & Hc). unfold unique_ids. simpl. split; [|tauto].
  apply (NoDup_deleted User.id), Hu.
Qed.

Lemma keeps_delete_CardCategory c : keeps (delete_CardCategory c).
Proof.
  intros w db (Hu & Hk & Hc). unfold unique_ids. simpl. split; [tauto|]. split; [|tauto].
  apply (NoDup_deleted CardCategory.id), Hk.
Qed.

Lemma keeps_delete_Card c : keeps (delete_Card c).
Proof.
  intros w db (Hu & Hk & Hc). unfold unique_ids. simpl. split; [tauto|]. split; [tauto|].
  apply (NoDup_deleted Card.id), Hc.
Qed.

Create HintDb keeps.
#[local] Hint Resolve keeps_getitem keeps_deref keeps_encode keeps_check_fields keeps_call
  keeps_select_User_first keeps_session_get_Card keeps_session_get_CardCategory
  keeps_add_User keeps_add_CardCategory keeps_add_Card
  keeps_commit_User keeps_commit_CardCategory keeps_commit_Card
  keeps_delete_User keeps_delete_CardCategory keeps_delete_Card : keeps.

Ltac keeps_step :=
  first
    [ apply keeps_ret
    | apply keeps_raise
    | apply keeps_bind; [|intros]
    | solve [auto with keeps]
    | apply keeps_read
    | match goal with
      | |- keeps (match ?x with _ => _ end) => destruct x
      end ].

Lemma keeps_required_fields {A} fields (function : handler A) request args :
  keeps (function request args) -> keeps (required_fields fields function request args).
Proof. intros H. unfold required_fields, request_json. repeat keeps_step. Qed.

Lemma keeps_token_required {A} (function : handler A) request args :
  keeps (function request args) -> keeps (token_required function request args).
Proof.
  intros H. unfold token_required, request_json.
  repeat keeps_step.
Qed.

(** Every endpoint, whatever the request and however it ends, leaves a store
    with unique primary keys in a store with unique primary keys. *)
Lemma app_keeps_unique_ids hashpw (e : endpoint) (request : Request) :
  keeps (app hashpw e request).
Proof.
  destruct e;
    cbv [app get_user create_user update_user delete_user get_cards get_card create_card
         update_card delete_card get_cards_categories get_card_category create_card_category
         update_card_category delete_card_category];
    repeat first [apply keeps_token_required | apply keeps_required_fields];
    cbv [get_user_fn create_user_fn update_user_fn delete_user_fn get_cards_fn get_card_fn
         create_card_fn update_card_fn delete_card_fn get_cards_categories_fn
         get_card_category_fn create_card_category_fn update_card_category_fn
         delete_card_category_fn request_json select_Card_all select_CardCategory_all
         uuid4 datetime_now gensalt];
    repeat keeps_step.
Qed.

(** Under unique primary keys a lookup by id finds the row with that id. *)
Lemma find_Card_unique db card :
  unique_ids db -> In card (cards db) -> find_Card (JStr (Card.id card)) db = Some card.
Proof. intros (_ & _ & H) Hin. apply (find_unique Card.id); assumption. Qed.

Lemma find_CardCategory_unique db c :
  unique_ids db -> In c (card_categories db) ->
  find_CardCategory (JStr (CardCategory.id c)) db = Some c.
Proof. intros (_ & H & _) Hin. apply (find_unique CardCategory.id); assumption. Qed.

Lemma find_User_unique db u :
  unique_ids db -> In u (users db) -> find_User (JStr (User.id u)) db = Some u.
Proof. intros (H & _ & _) Hin. apply (find_unique User.id); assumption. Qed.

(** ** The required-fields check *)

(** C2: for every list of mandatory field names and every decoded body, the
    check raises HTTP 400 naming the first field, in the declared order, that
    is absent or null in the body, whenever there is such a field, and leaves
    the store as it was; when every field is there and not null the call is
    the call of the wrapped handler on the same request, arguments,
    environment and store. *)
Theorem required_fields_contract {A : Type} (fields : list string) (function : handler A)
    (request : Request) (args : A) (w : World) (db : DB) :
  (forall pre field post,
      fields = pre ++ field :: post ->
      (forall f, In f pre -> exists v, json_body request !! f = Some v /\ v <> JNull) ->
      (json_body request !! field = None \/ json_body request !! field = Some JNull) ->
      required_fields fields function request args w db =
        (Raise (HTTPException 400 (required_detail field)), db))
  /\ ((exists f, In f fields /\
         (json_body request !! f = None \/ json_body request !! f = Some JNull)) ->
      exists pre field post,
        fields = pre ++ field :: post /\
        (forall f, In f pre -> exists v, json_body request !! f = Some v /\ v <> JNull) /\
        (json_body request !! field = None \/ json_body request !! field = Some JNull))
  /\ ((forall f, In f fields -> exists v, json_body request !! f = Some v /\ v <> JNull) ->
      required_fields fields function request args w db = function request args w db).
Proof.
  split; [|split].
  - intros pre field post -> Hpre Hfield.
    apply required_fields_fail.
    + apply forallb_forall. intros f Hf. apply present_true. exact (Hpre f Hf).
    + apply present_false. exact Hfield.
  - intros (f & Hin & Hf).
    destruct (first_missing_split (json_body request) fields) as (pre & field & post & E & Hp & Hm).
    { destruct (forallb (present (json_body request)) fields) eqn:Hall; [|reflexivity].
      rewrite forallb_forall in Hall. apply present_false in Hf.
      rewrite (Hall f Hin) in Hf. discriminate. }
    exists pre, field, post. split; [exact E|]. split.
    + intros g Hg. apply present_true. rewrite forallb_forall in Hp. exact (Hp g Hg).
    + apply present_false. exact Hm.
  - intros Hall. apply required_fields_pass.
    apply forallb_forall. intros f Hf. apply present_true. exact (Hall f Hf).
Qed.

(** ** The pseudo-authentication check *)



(** ** Running the handlers behind the decorators *)

Ltac run_handler :=
  unfold bind, ret, raise, request_json, select_User_first, session_get_Card,
    session_get_CardCategory, select_Card_all, select_CardCategory_all,
    uuid4, datetime_now, gensalt; simpl.

Ltac fields_present :=
  repeat match goal with
         | H : present ?b ?f = true |- context [getitem ?b ?f ?w ?db] =>
             rewrite (present_getitem b f w db H); simpl
         end.

(** A request is admitted as [u] when its user_id is there and the lookup of
    the user by it gives [u]; a user_id that is the id of [u] is one case. *)
Lemma found_is_admitted w body db u :
  find_User (dict_get body "user_id") db = Some u ->
  present body "user_id" = true
  /\ lookup_User w (dict_get body "user_id") db = Returns (Some u).
Proof.
  intros Hu. split; [exact (proj1 (find_User_authenticates _ _ _ Hu))|].
  apply lookup_User_found, Hu.
Qed.

Lemma get_card_any request card_id w db u :
  present (json_body request) "user_id" = true ->
  lookup_User w (dict_get (json_body request) "user_id") db = Returns (Some u) ->
  get_card request card_id w db =
    match find_Card (JStr card_id) db with
    | Some card =>
        if String.eqb (Card.user_id card) (User.id u)
        then (Ok (JSONResponse (Card.to_dict card) 200), db)
        else (Ok (not_found "card"), db)
    | None => (Ok (not_found "card"), db)
    end.
Proof.
  intros Hp Hl. unfold get_card. rewrite (token_required_admits _ _ _ _ _ u Hp Hl).
  unfold get_card_fn. run_handler. fields_present. rewrite Hl. simpl. fields_present.
  destruct (find_Card (JStr card_id) db) as [card|]; simpl; [|reflexivity].
  destruct (String.eqb (Card.user_id card) (User.id u)); reflexivity.
Qed.

Lemma get_card_run request card_id w db u :
  find_User (dict_get (json_body request) "user_id") db = Some u ->
  get_card request card_id w db =
    match find_Card (JStr card_id) db with
    | Some card =>
        if String.eqb (Card.user_id card) (User.id u)
        then (Ok (JSONResponse (Card.to_dict card) 200), db)
        else (Ok (not_found "card"), db)
    | None => (Ok (not_found "card"), db)
    end.
Proof.
  intros Hu. destruct (found_is_admitted w _ _ _ Hu) as [Hp Hl].
  apply get_card_any; assumption.
Qed.

Lemma get_card_category_any request card_category_id w db u :
  present (json_body request) "user_id" = true ->
  lookup_User w (dict_get (json_body request) "user_id") db = Returns (Some u) ->
  get_card_category request card_category_id w db =
    match find_CardCategory (JStr card_category_id) db with
    | Some card_category =>
        if String.eqb (CardCategory.user_id card_category) (User.id u)
        then (Ok (JSONResponse (CardCategory.to_dict card_category) 200), db)
        else (Ok (not_found "card category"), db)
    | None => (Ok (not_found "card category"), db)
    end.
Proof.
  intros Hp Hl. unfold get_card_category. rewrite (token_required_admits _ _ _ _ _ u Hp Hl).
  unfold get_card_category_fn. run_handler. fields_present. rewrite Hl. simpl. fields_present.
  destruct (find_CardCategory (JStr card_category_id) db) as [c|]; simpl; [|reflexivity].
  destruct (String.eqb (CardCategory.user_id c) (User.id u)); reflexivity.
Qed.

Lemma get_card_category_run request card_category_id w db u :
  find_User (dict_get (json_body request) "user_id") db = Some u ->
  get_card_category request card_category_id w db =
    match find_CardCategory (JStr card_category_id) db with
    | Some card_category =>
        if String.eqb (CardCategory.user_id card_category) (User.id u)
        then (Ok (JSONResponse (CardCategory.to_dict card_category) 200), db)
        else (Ok (not_found "card category"), db)
    | None => (Ok (not_found "card category"), db)
    end.
Proof.
  intros Hu. destruct (found_is_admitted w _ _ _ Hu) as [Hp Hl].
  apply get_card_category_any; assumption.
Qed.

Lemma update_card_any request w db u :
  present (json_body request) "user_id" = true ->
  lookup_User w (dict_get (json_body request) "user_id") db = Returns (Some u) ->
  forallb (present (json_body request)) ["id"; "status"; "title"; "category_id"] = true ->
  update_card request tt w db =
    match get_Card w (dict_get (json_body request) "id") db with
    | Returns (Some card) =>
        let card' := updated_Card (json_body request) (world_now w) card in
        (Ok (JSONResponse (Card.to_dict card') 200), put_Card card' db)
    | Returns None => (Ok (not_found "card"), db)
    | Raises kind => (Raise (External kind), db)
    end.
Proof.
  intros Hp Hl Hf. unfold update_card.
  rewrite (token_required_admits _ _ _ _ _ u Hp Hl), (required_fields_pass _ _ _ _ _ _ Hf).
  simpl in Hf. rewrite !andb_true_iff in Hf. destruct Hf as (Hid & Hst & Hti & Hca & _).
  unfold update_card_fn. run_handler. fields_present.
  destruct (get_Card w (dict_get (json_body request) "id") db) as [[card|]|kind];
    simpl; try reflexivity.
  fields_present. reflexivity.
Qed.

Lemma update_card_run request w db u :
  find_User (dict_get (json_body request) "user_id") db = Some u ->
  forallb (present (json_body request)) ["id"; "status"; "title"; "category_id"] = true ->
  update_card request tt w db =
    match get_Card w (dict_get (json_body request) "id") db with
    | Returns (Some card) =>
        let card' := updated_Card (json_body request) (world_now w) card in
        (Ok (JSONResponse (Card.to_dict card') 200), put_Card card' db)
    | Returns None => (Ok (not_found "card"), db)
    | Raises kind => (Raise (External kind), db)
    end.
Proof.
  intros Hu. destruct (found_is_admitted w _ _ _ Hu) as [Hp Hl].
  apply (update_card_any request w db u); assumption.
Qed.

Lemma delete_card_any request w db u :
  present (json_body request) "user_id" = true ->
  lookup_User w (dict_get (json_body request) "user_id") db = Returns (Some u) ->
  present (json_body request) "id" = true ->
  delete_card request tt w db =
    match get_Card w (dict_get (json_body request) "id") db with
    | Returns (Some card) => (Ok (JSONResponse (Card.to_dict card) 200), without_Card card db)
    | Returns None => (Ok (not_found "card"), db)
    | Raises kind => (Raise (External kind), db)
    end.
Proof.
  intros Hp Hl Hid. unfold delete_card.
  rewrite (token_required_admits _ _ _ _ _ u Hp Hl), required_fields_pass
    by (simpl; rewrite Hid; reflexivity).
  unfold delete_card_fn. run_handler. fields_present.
  destruct (get_Card w (dict_get (json_body request) "id") db) as [[card|]|kind]; reflexivity.
Qed.

Lemma delete_card_run request w db u :
  find_User (dict_get (json_body request) "user_id") db = Some u ->
  present (json_body request) "id" = true ->
  delete_card request tt w db =
    match get_Card w (dict_get (json_body request) "id") db with
    | Returns (Some card) => (Ok (JSONResponse (Card.to_dict card) 200), without_Card card db)
    | Returns None => (Ok (not_found "card"), db)
    | Raises kind => (Raise (External kind), db)
    end.
Proof.
  intros Hu. destruct (found_is_admitted w _ _ _ Hu) as [Hp Hl].
  apply (delete_card_any request w db u); assumption.
Qed.

Lemma update_card_category_any request w db u :
  present (json_body request) "user_id" = true ->
  lookup_User w (dict_get (json_body request) "user_id") db = Returns (Some u) ->
  forallb (present (json_body request)) ["category_id"; "name"; "color"] = true ->
  update_card_category request tt w db =
    match get_CardCategory w (dict_get (json_body request) "category_id") db with
    | Returns (Some card_category) =>
        let card_category' :=
          updated_CardCategory (json_body request) (world_now w) card_category in
        (Ok (JSONResponse (CardCategory.to_dict card_category') 200),
         put_CardCategory card_category' db)
    | Returns None => (Ok (not_found "card category"), db)
    | Raises kind => (Raise (External kind), db)
    end.
Proof.
  intros Hp Hl Hf. unfold update_card_category.
  rewrite (token_required_admits _ _ _ _ _ u Hp Hl), (required_fields_pass _ _ _ _ _ _ Hf).
  simpl in Hf. rewrite !andb_true_iff in Hf. destruct Hf as (Hid & Hna & Hco & _).
  unfold update_card_category_fn. run_handler. fields_present.
  destruct (get_CardCategory w _ db) as [[c|]|kind]; simpl; try reflexivity.
  fields_present. reflexivity.
Qed.

Lemma update_card_category_run request w db u :
  find_User (dict_get (json_body request) "user_id") db = Some u ->
  forallb (present (json_body request)) ["category_id"; "name"; "color"] = true ->
  update_card_category request tt w db =
    match get_CardCategory w (dict_get (json_body request) "category_id") db with
    | Returns (Some card_category) =>
        let card_category' :=
          updated_CardCategory (json_body request) (world_now w) card_category in
        (Ok (JSONResponse (CardCategory.to_dict card_category') 200),
         put_CardCategory card_category' db)
    | Returns None => (Ok (not_found "card category"), db)
    | Raises kind => (Raise (External kind), db)
    end.
Proof.
  intros Hu. destruct (found_is_admitted w _ _ _ Hu) as [Hp Hl].
  apply (update_card_category_any request w db u); assumption.
Qed.

Lemma delete_card_category_any request w db u :
  present (json_body request) "user_id" = true ->
  lookup_User w (dict_get (json_body request) "user_id") db = Returns (Some u) ->
  present (json_body request) "category_id" = true ->
  delete_card_category request tt w db =
    match get_CardCategory w (dict_get (json_body request) "category_id") db with
    | Returns (Some card_category) =>
        (Ok (JSONResponse (CardCategory.to_dict card_category) 200),
         without_CardCategory card_category db)
    | Returns None => (Ok (not_found "card category"), db)
    | Raises kind => (Raise (External kind), db)
    end.
Proof.
  intros Hp Hl Hid. unfold delete_card_category.
  rewrite (token_required_admits _ _ _ _ _ u Hp Hl), required_fields_pass
    by (simpl; rewrite Hid; reflexivity).
  unfold delete_card_category_fn. run_handler. fields_present.
  destruct (get_CardCategory w _ db) as [[c|]|kind]; reflexivity.
Qed.

Lemma delete_card_category_run request w db u :
  find_User (dict_get (json_body request) "user_id") db = Some u ->
  present (json_body request) "category_id" = true ->
  delete_card_category request tt w db =
    match get_CardCategory w (dict_get (json_body request) "category_id") db with
    | Returns (Some card_category) =>
        (Ok (JSONResponse (CardCategory.to_dict card_category) 200),
         without_CardCategory card_category db)
    | Returns None => (Ok (not_found "card category"), db)
    | Raises kind => (Raise (External kind), db)
    end.
Proof.
  intros Hu. destruct (found_is_admitted w _ _ _ Hu) as [Hp Hl].
  apply (delete_card_category_any request w db u); assumption.
Qed.

Lemma create_card_any request w db u :
  present (json_body request) "user_id" = true ->
  lookup_User w (dict_get (json_body request) "user_id") db = Returns (Some u) ->
  forallb (present (json_body request)) ["title"; "category_id"; "status"] = true ->
  create_card request tt w db =
    match get_CardCategory w (dict_get (json_body request) "category_id") db with
    | Returns None => (Ok (JSONResponse (JObj [("error", JStr "invalid category_id")]) 400), db)
    | Returns (Some category) =>
        let card := new_Card (json_body request) w category u in
        if existsb (fun r => String.eqb (Card.id r) (world_uuid w)) (cards db)
        then (Raise (External "IntegrityError"), db)
        else (Ok (JSONResponse (Card.to_dict card) 200),
              mkDB (users db) (card_categories db) (cards db ++ [card]))
    | Raises kind => (Raise (External kind), db)
    end.
Proof.
  intros Hp Hl Hf. unfold create_card.
  rewrite (token_required_admits _ _ _ _ _ u Hp Hl), (required_fields_pass _ _ _ _ _ _ Hf).
  simpl in Hf. rewrite !andb_true_iff in Hf. destruct Hf as (Hti & Hca & Hst & _).
  unfold create_card_fn. run_handler. fields_present. rewrite Hl. simpl. fields_present.
  destruct (get_CardCategory w _ db) as [[c|]|kind]; simpl; try reflexivity.
  fields_present. unfold add_Card. simpl.
  destruct (existsb _ (cards db)); reflexivity.
Qed.


Lemma create_card_category_any request w db u :
  present (json_body request) "user_id" = true ->
  lookup_User w (dict_get (json_body request) "user_id") db = Returns (Some u) ->
  forallb (present (json_body request)) ["name"; "color"] = true ->
  create_card_category request tt w db =
    let card_category := new_CardCategory (json_body request) w u in
    if existsb (fun r => String.eqb (CardCategory.id r) (world_uuid w)) (card_categories db)
    then (Raise (External "IntegrityError"), db)
    else (Ok (JSONResponse (CardCategory.to_dict card_category) 200),
          mkDB (users db) (card_categories db ++ [card_category]) (cards db)).
Proof.
  intros Hp Hl Hf. unfold create_card_category.
  rewrite (token_required_admits _ _ _ _ _ u Hp Hl), (required_fields_pass _ _ _ _ _ _ Hf).
  simpl in Hf. rewrite !andb_true_iff in Hf. destruct Hf as (Hna & Hco & _).
  unfold create_card_category_fn. run_handler. fields_present. rewrite Hl. simpl. fields_present.
  unfold add_CardCategory. simpl.
  destruct (existsb _ (card_categories db)); reflexivity.
Qed.


(** The hash stored for a password: the value [bcrypt.hashpw] returns for
    the bytes [str.encode] returns, or the exception either raises. *)
Lemma hashed_password_cases hashpw w plain :
  (exists kind, world_encode w plain = Raises kind)
  \/ (exists bytes kind, world_encode w plain = Returns bytes
                         /\ hashpw bytes (world_salt w) = @Raises string kind)
  \/ (exists bytes hash, world_encode w plain = Returns bytes
                         /\ hashpw bytes (world_salt w) = @Returns string hash).
Proof.
  destruct (world_encode w plain) as [bytes|kind]; [|left; eauto].
  destruct (hashpw bytes (world_salt w)) as [hash|kind] eqn:E; right; [right | left]; eauto.
Qed.

Lemma create_user_run hashpw request w db :
  forallb (present (json_body request)) ["name"; "email"; "password"] = true ->
  create_user hashpw request tt w db =
    match dict_get (json_body request) "password" with
    | JStr plain =>
        match world_encode w plain with
        | Returns bytes =>
            match hashpw bytes (world_salt w) with
            | Returns hash =>
                let user := new_User (json_body request) w hash in
                if existsb (fun r => String.eqb (User.id r) (world_uuid w)) (users db)
                then (Raise (External "IntegrityError"), db)
                else (Ok (JSONResponse (User.to_dict user) 200),
                      mkDB (users db ++ [user]) (card_categories db) (cards db))
            | Raises kind => (Raise (External kind), db)
            end
        | Raises kind => (Raise (External kind), db)
        end
    | _ => (Raise (Exception "AttributeError"), db)
    end.
Proof.
  intros Hf. unfold create_user. rewrite (required_fields_pass _ _ _ _ _ _ Hf).
  simpl in Hf. rewrite !andb_true_iff in Hf. destruct Hf as (Hna & Hem & Hpw & _).
  unfold create_user_fn. run_handler. fields_present.
  destruct (dict_get (json_body request) "password"); simpl; try reflexivity.
  unfold call. destruct (world_encode w s) as [bytes|kind]; simpl; [|reflexivity].
  destruct (hashpw bytes (world_salt w)) as [hash|kind]; simpl; [|reflexivity].
  fields_present. unfold add_User. simpl.
  destruct (existsb _ (users db)); reflexivity.
Qed.

Lemma update_user_any hashpw request w db u :
  present (json_body request) "user_id" = true ->
  lookup_User w (dict_get (json_body request) "user_id") db = Returns (Some u) ->
  forallb (present (json_body request)) ["name"; "password"; "email"] = true ->
  update_user hashpw request tt w db =
    match dict_get (json_body request) "password" with
    | JStr plain =>
        match world_encode w plain with
        | Returns bytes =>
            match hashpw bytes (world_salt w) with
            | Returns hash =>
                let user := updated_User (json_body request) hash (world_now w) u in
                (Ok (JSONResponse (User.to_dict user) 200), put_User user db)
            | Raises kind => (Raise (External kind), db)
            end
        | Raises kind => (Raise (External kind), db)
        end
    | _ => (Raise (Exception "AttributeError"), db)
    end.
Proof.
  intros Hp Hl Hf. unfold update_user.
  rewrite (token_required_admits _ _ _ _ _ u Hp Hl), (required_fields_pass _ _ _ _ _ _ Hf).
  simpl in Hf. rewrite !andb_true_iff in Hf. destruct Hf as (Hna & Hpw & Hem & _).
  unfold update_user_fn. run_handler. fields_present. rewrite Hl. simpl. fields_present.
  destruct (dict_get (json_body request) "password"); simpl; try reflexivity.
  unfold call. destruct (world_encode w s) as [bytes|kind]; simpl; [|reflexivity].
  destruct (hashpw bytes (world_salt w)) as [hash|kind]; simpl; [|reflexivity].
  fields_present. reflexivity.
Qed.


(** ** Lookups after a write *)

Lemma find_Card_key v db card :
  find_Card v db = Some card -> v = JStr (Card.id card).
Proof. intros H. exact (proj1 (find_key Card.id v _ _ H)). Qed.

Lemma find_CardCategory_key v db c :
  find_CardCategory v db = Some c -> v = JStr (CardCategory.id c).
Proof. intros H. exact (proj1 (find_key CardCategory.id v _ _ H)). Qed.

Lemma find_Card_put v db card card' :
  find_Card v db = Some card -> Card.id card' = Card.id card ->
  find_Card v (put_Card card' db) = Some card'.
Proof.
  intros H Hid. unfold find_Card, put_Card in *. simpl.
  rewrite (find_replaced Card.id v card' (cards db)), H. simpl.
  rewrite Hid, String.eqb_refl. reflexivity.
Qed.


Lemma find_CardCategory_put v db c c' :
  find_CardCategory v db = Some c -> CardCategory.id c' = CardCategory.id c ->
  find_CardCategory v (put_CardCategory c' db) = Some c'.
Proof.
  intros H Hid. unfold find_CardCategory, put_CardCategory in *. simpl.
  rewrite (find_replaced CardCategory.id v c' (card_categories db)), H. simpl.
  rewrite Hid, String.eqb_refl. reflexivity.
Qed.


Lemma find_User_put v db u u' :
  find_User v db = Some u -> User.id u' = User.id u ->
  find_User v (put_User u' db) = Some u'.
Proof.
  intros H Hid. unfold find_User, put_User in *. simpl.
  rewrite (find_replaced User.id v u' (users db)), H. simpl.
  rewrite Hid, String.eqb_refl. reflexivity.
Qed.


Lemma find_Card_without db card :
  find_Card (JStr (Card.id card)) (without_Card card db) = None.
Proof. unfold find_Card, without_Card. simpl. apply (find_deleted Card.id). Qed.

Lemma find_Card_without_frame v db card :
  v <> JStr (Card.id card) ->
  find_Card v (without_Card card db) = find_Card v db.
Proof. intros H. unfold find_Card, without_Card. simpl. apply (find_deleted_frame Card.id), H. Qed.

Lemma find_CardCategory_without db c :
  find_CardCategory (JStr (CardCategory.id c)) (without_CardCategory c db) = None.
Proof. unfold find_CardCategory, without_CardCategory. simpl. apply (find_deleted CardCategory.id). Qed.

Lemma find_CardCategory_without_frame v db c :
  v <> JStr (CardCategory.id c) ->
  find_CardCategory v (without_CardCategory c db) = find_CardCategory v db.
Proof.
  intros H. unfold find_CardCategory, without_CardCategory. simpl.
  apply (find_deleted_frame CardCategory.id), H.
Qed.

(** ** GET by id *)

(** C3: for a request whose user_id names the existing user u, GET /card/{id}
    and GET /card-category/{id} answer 200 with the record when a record
    with that id exists and its user_id is the id of u, and 404 when there
    is no record with that id or the record belongs to another user. *)
Theorem get_by_id_owned_or_404 (request : Request) (w : World) (db : DB) (u : User.t) :
  find_User (dict_get (json_body request) "user_id") db = Some u ->
  (forall card_id,
      (forall card, find_Card (JStr card_id) db = Some card ->
                    Card.user_id card = User.id u ->
                    get_card request card_id w db =
                      (Ok (JSONResponse (Card.to_dict card) 200), db))
      /\ (forall card, find_Card (JStr card_id) db = Some card ->
                       Card.user_id card <> User.id u ->
                       get_card request card_id w db = (Ok (not_found "card"), db))
      /\ (find_Card (JStr card_id) db = None ->
          get_card request card_id w db = (Ok (not_found "card"), db)))
  /\ (forall card_category_id,
      (forall card_category,
          find_CardCategory (JStr card_category_id) db = Some card_category ->
          CardCategory.user_id card_category = User.id u ->
          get_card_category request card_category_id w db =
            (Ok (JSONResponse (CardCategory.to_dict card_category) 200), db))
      /\ (forall card_category,
          find_CardCategory (JStr card_category_id) db = Some card_category ->
          CardCategory.user_id card_category <> User.id u ->
          get_card_category request card_category_id w db =
            (Ok (not_found "card category"), db))
      /\ (find_CardCategory (JStr card_category_id) db = None ->
          get_card_category request card_category_id w db =
            (Ok (not_found "card category"), db))).
Proof.
  intros Hu. split.
  - intros card_id. rewrite (get_card_run request card_id w db u Hu).
    repeat split.
    + intros card -> ->. rewrite String.eqb_refl. reflexivity.
    + intros card -> Hne. apply String.eqb_neq in Hne. rewrite Hne. reflexivity.
    + intros ->. reflexivity.
  - intros cid. rewrite (get_card_category_run request cid w db u Hu).
    repeat split.
    + intros c -> ->. rewrite String.eqb_refl. reflexivity.
    + intros c -> Hne. apply String.eqb_neq in Hne. rewrite Hne. reflexivity.
    + intros ->. reflexivity.
Qed.

(** ** PUT and DELETE on cards and categories *)




(** ** POST /card *)


(** ** DELETE /card, then GET *)


(** ** POST /card-category, then GET *)


(** ** POST /user *)


(** * The statements on the sample data *)



Lemma required_fields_contract_witness :
  required_fields ["id"; "status"] delete_card_fn Sample.put_card_ids_only tt
                  Sample.world Sample.db =
    (Raise (HTTPException 400 (required_detail "status")), Sample.db)
  /\ required_fields ["id"] delete_card_fn Sample.put_card_ids_only tt Sample.world Sample.db =
       delete_card_fn Sample.put_card_ids_only tt Sample.world Sample.db.
Proof.
  split.
  - apply (proj1 (required_fields_contract ["id"; "status"] delete_card_fn
                    Sample.put_card_ids_only tt Sample.world Sample.db) ["id"] "status" []).
    + reflexivity.
    + intros f [<-|[]]. exists (JStr "c-task"). split; [vm_compute; reflexivity | discriminate].
    + left. vm_compute. reflexivity.
  - apply (proj2 (proj2 (required_fields_contract ["id"] delete_card_fn
                           Sample.put_card_ids_only tt Sample.world Sample.db))).
    intros f [<-|[]]. exists (JStr "c-task"). split; [vm_compute; reflexivity | discriminate].
Defined.

Lemma get_by_id_owned_or_404_witness :
  find_User (dict_get (json_body Sample.as_bob) "user_id") Sample.db = Some Sample.bob
  /\ get_card Sample.as_bob "c-task" Sample.world Sample.db = (Ok (not_found "card"), Sample.db)
  /\ get_card_category Sample.as_bob "k-todo" Sample.world Sample.db =
       (Ok (not_found "card category"), Sample.db).
Proof.
  assert (H : find_User (dict_get (json_body Sample.as_bob) "user_id") Sample.db
              = Some Sample.bob) by (vm_compute; reflexivity).
  split; [exact H|].
  destruct (get_by_id_owned_or_404 Sample.as_bob Sample.world Sample.db Sample.bob H)
    as [Hcard Hcat].
  split.
  - apply (proj1 (proj2 (Hcard "c-task")) Sample.task); [vm_compute; reflexivity | discriminate].
  - apply (proj1 (proj2 (Hcat "k-todo")) Sample.todo); [vm_compute; reflexivity | discriminate].
Defined.












(** * The remaining routes *)

(** ** What the two decorators let through *)

Lemma required_fields_cases {A} fields (function : handler A) request args w db :
  (exists field, In field fields
     /\ present (json_body request) field = false
     /\ required_fields fields function request args w db =
          (Raise (HTTPException 400 (required_detail field)), db))
  \/ (forallb (present (json_body request)) fields = true
      /\ required_fields fields function request args w db = function request args w db).
Proof.
  destruct (forallb (present (json_body request)) fields) eqn:Hf.
  - right. split; [reflexivity|]. apply required_fields_pass, Hf.
  - left. destruct (first_missing_split _ _ Hf) as (pre & field & post & -> & Hpre & Hfield).
    exists field. split; [apply in_elt|]. split; [exact Hfield|].
    apply required_fields_fail; assumption.
Qed.

Lemma protected_cases {A} fields (function : handler A) request args w db :
  (exists detail,
      token_required (required_fields fields function) request args w db =
        (Raise (HTTPException 400 detail), db))
  \/ (exists kind,
      token_required (required_fields fields function) request args w db =
        (Raise (External kind), db))
  \/ (exists u,
      present (json_body request) "user_id" = true
      /\ lookup_User w (dict_get (json_body request) "user_id") db = Returns (Some u)
      /\ forallb (present (json_body request)) fields = true
      /\ token_required (required_fields fields function) request args w db =
           function request args w db).
Proof.
  rewrite token_required_run.
  destruct (present (json_body request) "user_id"); [|left; eexists; reflexivity].
  destruct (lookup_User w _ db) as [[u|]|kind] eqn:Hu;
    [|left; eexists; reflexivity|right; left; eexists; reflexivity].
  destruct (required_fields_cases fields function request args w db)
    as [(field & _ & _ & ->)|[Hf ->]]; [left; eexists; reflexivity|].
  right. right. exists u. auto.
Qed.

Lemma token_cases {A} (function : handler A) request args w db :
  (exists detail,
      token_required function request args w db = (Raise (HTTPException 400 detail), db))
  \/ (exists kind,
      token_required function request args w db = (Raise (External kind), db))
  \/ (exists u,
      present (json_body request) "user_id" = true
      /\ lookup_User w (dict_get (json_body request) "user_id") db = Returns (Some u)
      /\ token_required function request args w db = function request args w db).
Proof.
  rewrite token_required_run.
  destruct (present (json_body request) "user_id"); [|left; eexists; reflexivity].
  destruct (lookup_User w _ db) as [[u|]|kind] eqn:Hu;
    [|left; eexists; reflexivity|right; left; eexists; reflexivity].
  right. right. exists u. auto.
Qed.

(** ** Running the routes the claims leave out *)

Lemma get_user_any request w db u :
  present (json_body request) "user_id" = true ->
  lookup_User w (dict_get (json_body request) "user_id") db = Returns (Some u) ->
  get_user request tt w db = (Ok (JSONResponse (User.to_dict u) 200), db).
Proof.
  intros Hp Hl. unfold get_user. rewrite (token_required_admits _ _ _ _ _ u Hp Hl).
  unfold get_user_fn. run_handler. fields_present. rewrite Hl. reflexivity.
Qed.

Lemma get_user_run request w db u :
  find_User (dict_get (json_body request) "user_id") db = Some u ->
  get_user request tt w db = (Ok (JSONResponse (User.to_dict u) 200), db).
Proof.
  intros Hu. destruct (found_is_admitted w _ _ _ Hu) as [Hp Hl].
  exact (get_user_any request w db u Hp Hl).
Qed.

Lemma delete_user_any request w db u :
  present (json_body request) "user_id" = true ->
  lookup_User w (dict_get (json_body request) "user_id") db = Returns (Some u) ->
  delete_user request tt w db = (Ok (JSONResponse (User.to_dict u) 200), without_User u db).
Proof.
  intros Hp Hl. unfold delete_user. rewrite (token_required_admits _ _ _ _ _ u Hp Hl).
  unfold delete_user_fn. run_handler. fields_present. rewrite Hl. reflexivity.
Qed.

Lemma delete_user_run request w db u :
  find_User (dict_get (json_body request) "user_id") db = Some u ->
  delete_user request tt w db = (Ok (JSONResponse (User.to_dict u) 200), without_User u db).
Proof.
  intros Hu. destruct (found_is_admitted w _ _ _ Hu) as [Hp Hl].
  exact (delete_user_any request w db u Hp Hl).
Qed.

Lemma get_cards_any request w db u :
  present (json_body request) "user_id" = true ->
  lookup_User w (dict_get (json_body request) "user_id") db = Returns (Some u) ->
  get_cards request tt w db =
    (Ok (JSONResponse
           (JArr (List.map Card.to_dict
                    (List.filter (fun c => String.eqb (Card.user_id c) (User.id u)) (cards db))))
           200), db).
Proof.
  intros Hp Hl. unfold get_cards. rewrite (token_required_admits _ _ _ _ _ u Hp Hl).
  unfold get_cards_fn. run_handler. fields_present. rewrite Hl. reflexivity.
Qed.

Lemma get_cards_run request w db u :
  find_User (dict_get (json_body request) "user_id") db = Some u ->
  get_cards request tt w db =
    (Ok (JSONResponse
           (JArr (List.map Card.to_dict
                    (List.filter (fun c => String.eqb (Card.user_id c) (User.id u)) (cards db))))
           200), db).
Proof.
  intros Hu. destruct (found_is_admitted w _ _ _ Hu) as [Hp Hl].
  exact (get_cards_any request w db u Hp Hl).
Qed.

Lemma get_cards_categories_any request w db u :
  present (json_body request) "user_id" = true ->
  lookup_User w (dict_get (json_body request) "user_id") db = Returns (Some u) ->
  get_cards_categories request tt w db =
    (Ok (JSONResponse
           (JArr (List.map CardCategory.to_dict
                    (List.filter (fun c => String.eqb (CardCategory.user_id c) (User.id u))
                                 (card_categories db))))
           200), db).
Proof.
  intros Hp Hl. unfold get_cards_categories. rewrite (token_required_admits _ _ _ _ _ u Hp Hl).
  unfold get_cards_categories_fn. run_handler. fields_present. rewrite Hl. reflexivity.
Qed.

Lemma get_cards_categories_run request w db u :
  find_User (dict_get (json_body request) "user_id") db = Some u ->
  get_cards_categories request tt w db =
    (Ok (JSONResponse
           (JArr (List.map CardCategory.to_dict
                    (List.filter (fun c => String.eqb (CardCategory.user_id c) (User.id u))
                                 (card_categories db))))
           200), db).
Proof.
  intros Hu. destruct (found_is_admitted w _ _ _ Hu) as [Hp Hl].
  exact (get_cards_categories_any request w db u Hp Hl).
Qed.

Ltac ok200 :=
  do 5 right; eexists _, _; split;
  [ reflexivity
  | simpl; try reflexivity;
    repeat eexists; first [eassumption | reflexivity | apply existsb_key_find; eassumption] ].
Ltac nf404 :=
  do 2 right; left; split; [reflexivity | eexists; reflexivity].
Ltac ext500 :=
  do 4 right; left; eexists; reflexivity.
Ltac refused H :=
  destruct H as [(?d & H)|[(?kind & H)|H]];
  [ left; eexists; exact H
  | do 4 right; left; eexists; exact H
  | ].

(** ** How a request can end *)

Lemma app_cases hashpw (e : endpoint) (request : Request) (w : World) (db : DB) :
  (exists detail, app hashpw e request w db = (Raise (HTTPException 400 detail), db))
  \/ (e = POST_card
      /\ app hashpw e request w db =
           (Ok (JSONResponse (JObj [("error", JStr "invalid category_id")]) 400), db))
  \/ (by_id e = true
      /\ exists what, app hashpw e request w db = (Ok (not_found what), db))
  \/ ((e = POST_user \/ e = PUT_user)
      /\ present (json_body request) "password" = true
      /\ is_str (dict_get (json_body request) "password") = false
      /\ app hashpw e request w db = (Raise (Exception "AttributeError"), db))
  \/ (exists kind, app hashpw e request w db = (Raise (External kind), db))
  \/ (exists c db', app hashpw e request w db = (Ok (JSONResponse c 200), db')
                    /\ writes hashpw e request w db db').
Proof.
  destruct e; simpl.
  - (* GET /user *)
    pose proof (token_cases get_user_fn request tt w db) as H. refused H.
    destruct H as (u & Hp & Hu & _).
    rewrite (get_user_any request w db u Hp Hu). ok200.
  - (* POST /user *)
    destruct (required_fields_cases ["name"; "email"; "password"] (create_user_fn hashpw)
                                    request tt w db) as [(f & _ & _ & H)|[Hf _]];
      [left; eexists; exact H|].
    rewrite (create_user_run hashpw request w db Hf).
    assert (Hp : present (json_body request) "password" = true)
      by (simpl in Hf; rewrite !andb_true_iff in Hf; tauto).
    destruct (dict_get (json_body request) "password") eqn:E;
      try (do 3 right; left; repeat split; auto; fail).
    destruct (world_encode w s) as [bytes|kind] eqn:Henc; [|ext500].
    destruct (hashpw bytes (world_salt w)) as [hash|kind] eqn:Hhash; [|ext500].
    simpl. destruct (existsb _ (users db)) eqn:Ex.
    + ext500.
    + do 5 right. eexists _, _. split; [reflexivity|].
      exists s, bytes, hash. repeat split; try assumption.
      apply existsb_key_find. exact Ex.
  - (* PUT /user *)
    pose proof (protected_cases ["name"; "password"; "email"] (update_user_fn hashpw)
                                request tt w db) as H. refused H.
    destruct H as (u & Hp' & Hu & Hf & _).
    rewrite (update_user_any hashpw request w db u Hp' Hu Hf).
    assert (Hp : present (json_body request) "password" = true)
      by (simpl in Hf; rewrite !andb_true_iff in Hf; tauto).
    destruct (dict_get (json_body request) "password") eqn:E;
      try (do 3 right; left; repeat split; auto; fail).
    destruct (world_encode w s) as [bytes|kind] eqn:Henc; [|ext500].
    destruct (hashpw bytes (world_salt w)) as [hash|kind] eqn:Hhash; [|ext500].
    do 5 right. eexists _, _. split; [reflexivity|].
    exists hash, u. split; [exact Hu | reflexivity].
  - (* DELETE /user *)
    pose proof (token_cases delete_user_fn request tt w db) as H. refused H.
    destruct H as (u & Hp & Hu & _).
    rewrite (delete_user_any request w db u Hp Hu). ok200.
  - (* GET /card *)
    pose proof (token_cases get_cards_fn request tt w db) as H. refused H.
    destruct H as (u & Hp & Hu & _).
    rewrite (get_cards_any request w db u Hp Hu). ok200.
  - (* GET /card/{card_id} *)
    pose proof (token_cases get_card_fn request card_id w db) as H. refused H.
    destruct H as (u & Hp & Hu & _).
    rewrite (get_card_any request card_id w db u Hp Hu).
    destruct (find_Card _ db) as [card|];
      [destruct (String.eqb _ _)|];
      first [ ok200
            | nf404 ].
  - (* POST /card *)
    pose proof (protected_cases ["title"; "category_id"; "status"] create_card_fn
                                request tt w db) as H. refused H.
    destruct H as (u & Hp & Hu & Hf & _).
    rewrite (create_card_any request w db u Hp Hu Hf).
    destruct (get_CardCategory w _ db) as [[c|]|kind] eqn:Hc.
    + simpl. destruct (existsb _ (cards db)) eqn:Ex.
      * ext500.
      * do 5 right. eexists _, _. split; [reflexivity|].
        exists u, c. repeat split; try assumption.
        apply existsb_key_find. exact Ex.
    + right; left; split; reflexivity.
    + ext500.
  - (* PUT /card *)
    pose proof (protected_cases ["id"; "status"; "title"; "category_id"] update_card_fn
                                request tt w db) as H. refused H.
    destruct H as (u & Hp & Hu & Hf & _).
    rewrite (update_card_any request w db u Hp Hu Hf).
    destruct (get_Card w _ db) as [[card|]|kind] eqn:Hc.
    + ok200.
    + nf404.
    + ext500.
  - (* DELETE /card *)
    pose proof (protected_cases ["id"] delete_card_fn request tt w db) as H. refused H.
    destruct H as (u & Hp & Hu & Hf & _).
    rewrite (delete_card_any request w db u Hp Hu)
      by (simpl in Hf; rewrite andb_true_r in Hf; exact Hf).
    destruct (get_Card w _ db) as [[card|]|kind] eqn:Hc.
    + ok200.
    + nf404.
    + ext500.
  - (* GET /card-category *)
    pose proof (token_cases get_cards_categories_fn request tt w db) as H. refused H.
    destruct H as (u & Hp & Hu & _).
    rewrite (get_cards_categories_any request w db u Hp Hu).
    ok200.
  - (* GET /card-category/{card_category_id} *)
    pose proof (token_cases get_card_category_fn request card_category_id w db) as H.
    refused H. destruct H as (u & Hp & Hu & _).
    rewrite (get_card_category_any request card_category_id w db u Hp Hu).
    destruct (find_CardCategory _ db) as [c|];
      [destruct (String.eqb _ _)|];
      first [ ok200
            | nf404 ].
  - (* POST /card-category *)
    pose proof (protected_cases ["name"; "color"] create_card_category_fn request tt w db)
      as H. refused H.
    destruct H as (u & Hp & Hu & Hf & _).
    rewrite (create_card_category_any request w db u Hp Hu Hf). simpl.
    destruct (existsb _ (card_categories db)) eqn:Ex.
    + ext500.
    + do 5 right. eexists _, _. split; [reflexivity|].
      exists u. repeat split; try assumption.
      apply existsb_key_find. exact Ex.
  - (* PUT /card-category *)
    pose proof (protected_cases ["category_id"; "name"; "color"] update_card_category_fn
                                request tt w db) as H. refused H.
    destruct H as (u & Hp & Hu & Hf & _).
    rewrite (update_card_category_any request w db u Hp Hu Hf).
    destruct (get_CardCategory w _ db) as [[c|]|kind] eqn:Hc.
    + ok200.
    + nf404.
    + ext500.
  - (* DELETE /card-category *)
    pose proof (protected_cases ["category_id"] delete_card_category_fn request tt w db)
      as H. refused H.
    destruct H as (u & Hp & Hu & Hf & _).
    rewrite (delete_card_category_any request w db u Hp Hu)
      by (simpl in Hf; rewrite andb_true_r in Hf; exact Hf).
    destruct (get_CardCategory w _ db) as [[c|]|kind] eqn:Hc.
    + ok200.
    + nf404.
    + ext500.
Qed.

(** ** What every route guarantees *)

(** X1: whatever the route and the request, an answer other than 200, be it
    an HTTP 400, a 404 or an unhandled exception, leaves the store exactly
    as it was. *)
Theorem an_error_leaves_the_store_as_it_was
    (hashpw : string -> string -> outside string) (e : endpoint)
    (request : Request) (w : World) (db : DB) :
  http_status (fst (app hashpw e request w db)) <> 200 ->
  snd (app hashpw e request w db) = db.
Proof.
  intros Hs.
  destruct (app_cases hashpw e request w db)
    as [(d & H)|[(_ & H)|[(_ & what & H)|[(_ & _ & _ & H)|[(ext & H)|(c & db' & H & _)]]]]];
    rewrite H in *; simpl in *; try reflexivity.
  contradiction.
Qed.

(** X2: the status of an answer is 200, 400, 404 or 500, whatever the route
    and the request, and 404 comes only from the routes that address one card
    or one category by its id. *)
Theorem the_statuses_a_route_answers_with
    (hashpw : string -> string -> outside string) (e : endpoint)
    (request : Request) (w : World) (db : DB) :
  http_status (fst (app hashpw e request w db)) = 200
  \/ http_status (fst (app hashpw e request w db)) = 400
  \/ (http_status (fst (app hashpw e request w db)) = 404 /\ by_id e = true)
  \/ http_status (fst (app hashpw e request w db)) = 500.
Proof.
  destruct (app_cases hashpw e request w db)
    as [(d & H)|[(_ & H)|[(Hid & what & H)|[(_ & _ & _ & H)|[(ext & H)|(c & db' & H & _)]]]]];
    rewrite H; simpl; auto.
Qed.

(** X3: for a request whose body is a JSON object, of the expressions of
    the views themselves (the subscripts [body[...]], the attributes read
    off the result of a query and [.encode]), one only can raise: [.encode] on POST /user or PUT /user
    whose password is present and not a string, an [AttributeError].  No
    [KeyError] is raised: every [body[...]] is reached after the presence of
    the field was checked; and no [AttributeError] on the user: every route
    that reads the user's attributes runs behind [token_required].  The
    exceptions raised inside the libraries the views call (the database
    driver and the ORM, [str.encode], [bcrypt]) are not among these: they
    are the [External] ones, whose kinds the views do not determine. *)
Theorem the_unhandled_exceptions
    (hashpw : string -> string -> outside string) (e : endpoint)
    (request : Request) (w : World) (db : DB) (kind : string) :
  fst (app hashpw e request w db) = Raise (Exception kind) ->
  kind = "AttributeError"
  /\ (e = POST_user \/ e = PUT_user)
  /\ present (json_body request) "password" = true
  /\ is_str (dict_get (json_body request) "password") = false.
Proof.
  intros Hr.
  destruct (app_cases hashpw e request w db)
    as [(d & H)|[(_ & H)|[(_ & what & H)|[(He & Hp & Hs & H)|[(ext & H)|(c & db' & H & _)]]]]];
    rewrite H in Hr; simpl in Hr; try discriminate.
  injection Hr as <-. auto.
Qed.

Lemma app_GET_store hashpw e request w db :
  is_GET e = true -> snd (app hashpw e request w db) = db.
Proof.
  intros Hg.
  destruct (app_cases hashpw e request w db)
    as [(d & H)|[(_ & H)|[(_ & what & H)|[(_ & _ & _ & H)|[(ext & H)|(c & db' & H & Hw)]]]]];
    rewrite H; simpl; try reflexivity.
  destruct e; try discriminate; exact Hw.
Qed.

(** X4: a GET route never writes: whatever the request, and however it is
    answered, the store is left as it was. *)
Theorem a_GET_never_writes
    (hashpw : string -> string -> outside string) (e : endpoint)
    (request : Request) (w : World) (db : DB) :
  is_GET e = true ->
  snd (app hashpw e request w db) = db.
Proof.
  intros Hg.
  destruct (app_cases hashpw e request w db)
    as [(d & H)|[(_ & H)|[(_ & what & H)|[(_ & _ & _ & H)|[(ext & H)|(c & db' & H & Hw)]]]]];
    rewrite H; simpl; try reflexivity.
  destruct e; try discriminate; exact Hw.
Qed.

(** X5: the POST, PUT and DELETE routes of /card touch neither the users nor
    the categories, POST and PUT of /card-category neither the users nor the
    cards, and POST and PUT of /user neither the categories nor the cards,
    whatever the request. *)
Theorem a_route_writes_its_own_table
    (hashpw : string -> string -> outside string) (e : endpoint)
    (request : Request) (w : World) (db : DB) :
  ((e = POST_card \/ e = PUT_card \/ e = DELETE_card) ->
   users (snd (app hashpw e request w db)) = users db
   /\ card_categories (snd (app hashpw e request w db)) = card_categories db)
  /\ ((e = POST_card_category \/ e = PUT_card_category) ->
      users (snd (app hashpw e request w db)) = users db
      /\ cards (snd (app hashpw e request w db)) = cards db)
  /\ ((e = POST_user \/ e = PUT_user) ->
      card_categories (snd (app hashpw e request w db)) = card_categories db
      /\ cards (snd (app hashpw e request w db)) = cards db).
Proof.
  destruct (app_cases hashpw e request w db)
    as [(d & H)|[(_ & H)|[(_ & what & H)|[(_ & _ & _ & H)|[(ext & H)|(c & db' & H & Hw)]]]]];
    rewrite H; simpl; try (split; [|split]; intros _; split; reflexivity).
  split; [|split];
    intros He; decompose [or] He; subst e; simpl in Hw; decompose [ex and] Hw; subst db';
    split; reflexivity.
Qed.

(** X6: a PUT route neither creates nor removes a record: whatever the
    request, each table has as many rows after as before; in particular a
    PUT whose target does not exist creates nothing. *)
Theorem a_PUT_keeps_the_number_of_rows
    (hashpw : string -> string -> outside string) (e : endpoint)
    (request : Request) (w : World) (db : DB) :
  e = PUT_user \/ e = PUT_card \/ e = PUT_card_category ->
  length (users (snd (app hashpw e request w db))) = length (users db)
  /\ length (card_categories (snd (app hashpw e request w db))) = length (card_categories db)
  /\ length (cards (snd (app hashpw e request w db))) = length (cards db).
Proof.
  intros He.
  destruct (app_cases hashpw e request w db)
    as [(d & H)|[(_ & H)|[(_ & what & H)|[(_ & _ & _ & H)|[(ext & H)|(c & db' & H & Hw)]]]]];
    rewrite H; simpl; try (repeat split; reflexivity).
  decompose [or] He; subst e; simpl in Hw; decompose [ex and] Hw; subst db'; simpl;
    rewrite ?length_map; repeat split; reflexivity.
Qed.

(** ** The collections *)

Lemma List_filter_sublist {A} (f : A -> bool) (l : list A) : sublist (List.filter f l) l.
Proof.
  induction l as [|x l IH]; simpl; [constructor|].
  destruct (f x); [apply sublist_skip | apply sublist_cons]; exact IH.
Qed.

(** X7: GET /card and GET /card-category, for a request whose user_id names
    the existing user u, answer 200 with the serialised rows of the table
    that belong to u: every row whose user_id is the id of u, no other row,
    in the order of the table; the store is left as it was. *)
Theorem the_collections_list_the_rows_of_the_caller
    (request : Request) (w : World) (db : DB) (u : User.t) :
  find_User (dict_get (json_body request) "user_id") db = Some u ->
  (exists rows,
      get_cards request tt w db =
        (Ok (JSONResponse (JArr (List.map Card.to_dict rows)) 200), db)
      /\ (forall c, In c rows <-> In c (cards db) /\ Card.user_id c = User.id u)
      /\ sublist rows (cards db))
  /\ (exists rows,
      get_cards_categories request tt w db =
        (Ok (JSONResponse (JArr (List.map CardCategory.to_dict rows)) 200), db)
      /\ (forall c, In c rows <-> In c (card_categories db) /\ CardCategory.user_id c = User.id u)
      /\ sublist rows (card_categories db)).
Proof.
  intros Hu. split.
  - eexists. split; [apply (get_cards_run request w db u Hu)|]. split.
    + intros c. rewrite filter_In, String.eqb_eq. reflexivity.
    + apply List_filter_sublist.
  - eexists. split; [apply (get_cards_categories_run request w db u Hu)|]. split.
    + intros c. rewrite filter_In, String.eqb_eq. reflexivity.
    + apply List_filter_sublist.
Qed.

(** X8: on a store with unique primary keys the collection and the lookup by
    id agree: for a request whose user_id names an existing user, a card of
    the table is listed by GET /card exactly when GET /card/{id} for its id
    answers 200 with it; likewise for the categories. *)
Theorem the_collection_agrees_with_the_lookup_by_id
    (request : Request) (w : World) (db : DB) (u : User.t) :
  find_User (dict_get (json_body request) "user_id") db = Some u ->
  unique_ids db ->
  (exists rows,
      get_cards request tt w db =
        (Ok (JSONResponse (JArr (List.map Card.to_dict rows)) 200), db)
      /\ forall card, In card (cards db) ->
           (In card rows <->
            get_card request (Card.id card) w db =
              (Ok (JSONResponse (Card.to_dict card) 200), db)))
  /\ (exists rows,
      get_cards_categories request tt w db =
        (Ok (JSONResponse (JArr (List.map CardCategory.to_dict rows)) 200), db)
      /\ forall c, In c (card_categories db) ->
           (In c rows <->
            get_card_category request (CardCategory.id c) w db =
              (Ok (JSONResponse (CardCategory.to_dict c) 200), db))).
Proof.
  intros Hu Huniq. split.
  - eexists. split; [apply (get_cards_run request w db u Hu)|].
    intros card Hin. rewrite (get_card_run request _ w db u Hu).
    rewrite (find_Card_unique db card Huniq Hin), filter_In.
    destruct (String.eqb (Card.user_id card) (User.id u)) eqn:E.
    + tauto.
    + split; [intros [_ ?]; discriminate | intros ?; discriminate].
  - eexists. split; [apply (get_cards_categories_run request w db u Hu)|].
    intros c Hin. rewrite (get_card_category_run request _ w db u Hu).
    rewrite (find_CardCategory_unique db c Huniq Hin), filter_In.
    destruct (String.eqb (CardCategory.user_id c) (User.id u)) eqn:E.
    + tauto.
    + split; [intros [_ ?]; discriminate | intros ?; discriminate].
Qed.

(** ** GET /user and DELETE /user *)

Lemma find_User_without db u :
  find_User (JStr (User.id u)) (without_User u db) = None.
Proof. unfold find_User, without_User. simpl. apply (find_deleted User.id). Qed.

Lemma find_User_without_frame v db u :
  v <> JStr (User.id u) ->
  find_User v (without_User u db) = find_User v db.
Proof. intros H. unfold find_User, without_User. simpl. apply (find_deleted_frame User.id), H. Qed.

Lemma app_rejects_an_unknown_user hashpw e request w db s :
  e <> POST_user ->
  dict_get (json_body request) "user_id" = JStr s ->
  find_User (JStr s) db = None ->
  app hashpw e request w db = (Raise (HTTPException 400 "invalid user_id"), db).
Proof.
  intros He E Hnone.
  assert (Hp : present (json_body request) "user_id" = true)
    by (unfold present; rewrite E; reflexivity).
  destruct e; try (exfalso; apply He; reflexivity);
    cbv [app get_user update_user delete_user get_cards get_card create_card update_card
         delete_card get_cards_categories get_card_category create_card_category
         update_card_category delete_card_category];
    rewrite token_required_run, Hp, E, lookup_User_str, Hnone; reflexivity.
Qed.

(** X9: GET /user, for a request whose user_id names an existing user,
    answers 200 with the record of that very user, the one whose id is the
    user_id of the body, and leaves the store as it was; on a store with
    unique primary keys every stored user is served their own record. *)
Theorem get_user_serves_the_caller_their_own_record
    (request : Request) (w : World) (db : DB) :
  (forall u,
      find_User (dict_get (json_body request) "user_id") db = Some u ->
      get_user request tt w db = (Ok (JSONResponse (User.to_dict u) 200), db)
      /\ json_body request !! "user_id" = Some (JStr (User.id u))
      /\ In u (users db))
  /\ (forall u,
      unique_ids db -> In u (users db) ->
      json_body request !! "user_id" = Some (JStr (User.id u)) ->
      get_user request tt w db = (Ok (JSONResponse (User.to_dict u) 200), db)).
Proof.
  split.
  - intros u Hu. split; [apply get_user_run, Hu|].
    destruct (find_User_authenticates _ _ _ Hu) as [Hp Hid].
    split; [rewrite (present_lookup _ _ Hp), Hid; reflexivity|].
    unfold find_User in Hu. apply (find_key User.id) in Hu. tauto.
  - intros u Huniq Hin Hid. apply get_user_run.
    unfold dict_get. rewrite Hid. simpl. apply find_User_unique; assumption.
Qed.

(** X10: DELETE /user, for a request whose user_id names the existing user
    u, answers 200 with the record of u as it was and removes it; from then
    on every route other than POST /user answers a request with that user_id
    with HTTP 400 'invalid user_id', and the other users are still found. *)
Theorem delete_user_then_the_user_id_is_refused
    (hashpw : string -> string -> outside string)
    (request : Request) (w : World) (db : DB) (u : User.t) :
  find_User (dict_get (json_body request) "user_id") db = Some u ->
  exists db',
    delete_user request tt w db = (Ok (JSONResponse (User.to_dict u) 200), db')
    /\ (forall e request' w',
           e <> POST_user ->
           dict_get (json_body request') "user_id" = dict_get (json_body request) "user_id" ->
           app hashpw e request' w' db' = (Raise (HTTPException 400 "invalid user_id"), db'))
    /\ (forall v, v <> dict_get (json_body request) "user_id" ->
                  find_User v db' = find_User v db).
Proof.
  intros Hu. eexists. split; [apply (delete_user_run request w db u Hu)|].
  destruct (find_User_authenticates _ _ _ Hu) as [Hp Hid]. split.
  - intros e request' w' He E.
    apply (app_rejects_an_unknown_user hashpw e request' w' _ (User.id u)); [exact He| |].
    + rewrite E. exact Hid.
    + apply find_User_without.
  - intros v Hv. apply find_User_without_frame. rewrite <- Hid. exact Hv.
Qed.

(** ** Repeating a request *)

Section TableAgain.
Context {R : Type} (key : R -> string).

Lemma map_replaced_twice (x' : R) (rows : list R) :
  let put := fun r => if String.eqb (key r) (key x') then x' else r in
  List.map put (List.map put rows) = List.map put rows.
Proof.
  intros put. rewrite List.map_map. apply List.map_ext. intros r. unfold put.
  destruct (String.eqb (key r) (key x')) eqn:E; [rewrite String.eqb_refl | rewrite E];
    reflexivity.
Qed.


Lemma filter_added_other (f : R -> bool) (x : R) (rows : list R) :
  f x = false -> List.filter f (rows ++ [x]) = List.filter f rows.
Proof. intros H. rewrite List.filter_app. simpl. rewrite H. apply app_nil_r. Qed.
End TableAgain.

Lemma put_Card_twice card db : put_Card card (put_Card card db) = put_Card card db.
Proof. unfold put_Card. simpl. rewrite (map_replaced_twice Card.id). reflexivity. Qed.

Lemma put_CardCategory_twice c db :
  put_CardCategory c (put_CardCategory c db) = put_CardCategory c db.
Proof.
  unfold put_CardCategory. simpl. rewrite (map_replaced_twice CardCategory.id). reflexivity.
Qed.

Lemma put_User_twice u db : put_User u (put_User u db) = put_User u db.
Proof. unfold put_User. simpl. rewrite (map_replaced_twice User.id). reflexivity. Qed.

Lemma get_Card_put w v db card card' :
  get_Card w v db = Returns (Some card) -> Card.id card' = Card.id card ->
  get_Card w v (put_Card card' db) = Returns (Some card').
Proof.
  unfold get_Card. intros H Hid. destruct (lookup_Some _ _ _ _ H) as (s & E & Hs).
  rewrite E. simpl. rewrite (find_Card_put _ _ card) by assumption. reflexivity.
Qed.

Lemma get_CardCategory_put w v db c c' :
  get_CardCategory w v db = Returns (Some c) -> CardCategory.id c' = CardCategory.id c ->
  get_CardCategory w v (put_CardCategory c' db) = Returns (Some c').
Proof.
  unfold get_CardCategory. intros H Hid. destruct (lookup_Some _ _ _ _ H) as (s & E & Hs).
  rewrite E. simpl. rewrite (find_CardCategory_put _ _ c) by assumption. reflexivity.
Qed.

Lemma lookup_User_put w v db u u' :
  lookup_User w v db = Returns (Some u) -> User.id u' = User.id u ->
  lookup_User w v (put_User u' db) = Returns (Some u').
Proof.
  unfold lookup_User. intros H Hid. destruct (lookup_Some _ _ _ _ H) as (s & E & Hs).
  rewrite E. simpl. rewrite (find_User_put _ _ u) by assumption. reflexivity.
Qed.

Lemma update_card_twice request w db :
  update_card request tt w (snd (update_card request tt w db)) = update_card request tt w db.
Proof.
  destruct (protected_cases ["id"; "status"; "title"; "category_id"] update_card_fn
                            request tt w db) as [(d & H)|[(kind & H)|(u & Hp & Hu & Hf & _)]].
  - unfold update_card. rewrite H. simpl. exact H.
  - unfold update_card. rewrite H. simpl. exact H.
  - rewrite (update_card_any request w db u Hp Hu Hf).
    destruct (get_Card w _ db) as [[card|]|kind] eqn:Hc; simpl.
    + rewrite (update_card_any request w _ u Hp) by assumption.
      rewrite (get_Card_put w _ db card) by (exact Hc || reflexivity).
      cbv zeta.
      change (updated_Card (json_body request) (world_now w)
                (updated_Card (json_body request) (world_now w) card))
        with (updated_Card (json_body request) (world_now w) card).
      rewrite put_Card_twice. reflexivity.
    + rewrite (update_card_any request w db u Hp Hu Hf), Hc. reflexivity.
    + rewrite (update_card_any request w db u Hp Hu Hf), Hc. reflexivity.
Qed.

Lemma update_card_category_twice request w db :
  update_card_category request tt w (snd (update_card_category request tt w db)) =
  update_card_category request tt w db.
Proof.
  destruct (protected_cases ["category_id"; "name"; "color"] update_card_category_fn
                            request tt w db) as [(d & H)|[(kind & H)|(u & Hp & Hu & Hf & _)]].
  - unfold update_card_category. rewrite H. simpl. exact H.
  - unfold update_card_category. rewrite H. simpl. exact H.
  - rewrite (update_card_category_any request w db u Hp Hu Hf).
    destruct (get_CardCategory w _ db) as [[c|]|kind] eqn:Hc; simpl.
    + rewrite (update_card_category_any request w _ u Hp) by assumption.
      rewrite (get_CardCategory_put w _ db c) by (exact Hc || reflexivity).
      cbv zeta.
      change (updated_CardCategory (json_body request) (world_now w)
                (updated_CardCategory (json_body request) (world_now w) c))
        with (updated_CardCategory (json_body request) (world_now w) c).
      rewrite put_CardCategory_twice. reflexivity.
    + rewrite (update_card_category_any request w db u Hp Hu Hf), Hc. reflexivity.
    + rewrite (update_card_category_any request w db u Hp Hu Hf), Hc. reflexivity.
Qed.

Lemma update_user_twice hashpw request w db :
  update_user hashpw request tt w (snd (update_user hashpw request tt w db)) =
  update_user hashpw request tt w db.
Proof.
  destruct (protected_cases ["name"; "password"; "email"] (update_user_fn hashpw)
                            request tt w db) as [(d & H)|[(kind & H)|(u & Hp & Hu & Hf & _)]].
  - unfold update_user. rewrite H. simpl. exact H.
  - unfold update_user. rewrite H. simpl. exact H.
  - rewrite (update_user_any hashpw request w db u Hp Hu Hf).
    destruct (dict_get (json_body request) "password") eqn:Hpw; simpl;
      try (rewrite (update_user_any hashpw request w db u Hp Hu Hf), Hpw; reflexivity).
    destruct (world_encode w s) as [bytes|kind] eqn:Henc; simpl;
      [|rewrite (update_user_any hashpw request w db u Hp Hu Hf), Hpw, Henc; reflexivity].
    destruct (hashpw bytes (world_salt w)) as [hash|kind] eqn:Hhash; simpl;
      [|rewrite (update_user_any hashpw request w db u Hp Hu Hf), Hpw, Henc, Hhash;
        reflexivity].
    rewrite (update_user_any hashpw request w _
               (updated_User (json_body request) hash (world_now w) u) Hp)
      by (assumption || (apply (lookup_User_put w _ db u); [exact Hu | reflexivity])).
    rewrite Hpw, Henc, Hhash. cbv zeta.
    change (updated_User (json_body request) hash (world_now w)
              (updated_User (json_body request) hash (world_now w) u))
      with (updated_User (json_body request) hash (world_now w) u).
    rewrite put_User_twice. reflexivity.
Qed.

(** X11: GET and PUT are idempotent: sending the same request again, under
    the same clock and salt, to the store the first request left gives the
    same answer and the same store, whatever the request. *)
Theorem a_repeated_GET_or_PUT_changes_nothing
    (hashpw : string -> string -> outside string) (e : endpoint)
    (request : Request) (w : World) (db : DB) :
  is_GET e = true \/ e = PUT_user \/ e = PUT_card \/ e = PUT_card_category ->
  app hashpw e request w (snd (app hashpw e request w db)) = app hashpw e request w db.
Proof.
  intros [Hg | [-> | [-> | ->]]].
  - rewrite (app_GET_store hashpw e request w db Hg). reflexivity.
  - apply update_user_twice.
  - apply update_card_twice.
  - apply update_card_category_twice.
Qed.

(** ** After a DELETE *)

(** X12: after a DELETE /card that answered 200 the card is gone for every
    route: the same DELETE again and a PUT /card for that id answer 404 and
    write nothing, and GET /card lists no card with that id to any user. *)
Theorem a_deleted_card_is_gone
    (request : Request) (w : World) (db : DB) (u : User.t) (card : Card.t) :
  find_User (dict_get (json_body request) "user_id") db = Some u ->
  find_Card (dict_get (json_body request) "id") db = Some card ->
  exists db',
    delete_card request tt w db = (Ok (JSONResponse (Card.to_dict card) 200), db')
    /\ (forall w', delete_card request tt w' db' = (Ok (not_found "card"), db'))
    /\ (forall request' w' u',
           find_User (dict_get (json_body request') "user_id") db' = Some u' ->
           forallb (present (json_body request')) ["id"; "status"; "title"; "category_id"] = true ->
           dict_get (json_body request') "id" = dict_get (json_body request) "id" ->
           update_card request' tt w' db' = (Ok (not_found "card"), db'))
    /\ (forall request' w' u',
           find_User (dict_get (json_body request') "user_id") db' = Some u' ->
           exists rows,
             get_cards request' tt w' db' =
               (Ok (JSONResponse (JArr (List.map Card.to_dict rows)) 200), db')
             /\ forall c, In c rows -> Card.id c <> Card.id card).
Proof.
  intros Hu Hc.
  assert (Hid : present (json_body request) "id" = true).
  { unfold present. rewrite (find_Card_key _ _ _ Hc). reflexivity. }
  assert (Hgone : find_Card (dict_get (json_body request) "id") (without_Card card db) = None).
  { rewrite (find_Card_key _ _ _ Hc). apply find_Card_without. }
  assert (Hnone : forall w', get_Card w' (dict_get (json_body request) "id")
                                     (without_Card card db) = Returns None).
  { intros w'. revert Hgone. rewrite (find_Card_key _ _ _ Hc), get_Card_str.
    intros ->. reflexivity. }
  exists (without_Card card db).
  split; [rewrite (delete_card_run request w db u Hu Hid), (get_Card_found w _ _ _ Hc);
          reflexivity|].
  split; [|split].
  - intros w'. rewrite (delete_card_run request w' _ u) by assumption.
    rewrite Hnone. reflexivity.
  - intros request' w' u' Hu' Hf E.
    rewrite (update_card_run request' w' _ u' Hu' Hf), E, Hnone. reflexivity.
  - intros request' w' u' Hu'. eexists.
    split; [apply (get_cards_run request' w' _ u' Hu')|].
    intros c Hin E. apply filter_In in Hin as [Hin _]. simpl in Hin.
    apply filter_In in Hin as [_ Hin]. rewrite E, String.eqb_refl in Hin. discriminate.
Qed.

(** X13: after a DELETE /card-category that answered 200, GET
    /card-category/{id} for that id answers 404 whoever the existing user
    asking is, and the same DELETE again and a PUT /card-category for that id
    answer 404 and write nothing. *)
Theorem a_deleted_category_is_gone
    (request : Request) (w : World) (db : DB) (u : User.t) (c : CardCategory.t) :
  find_User (dict_get (json_body request) "user_id") db = Some u ->
  find_CardCategory (dict_get (json_body request) "category_id") db = Some c ->
  exists db',
    delete_card_category request tt w db =
      (Ok (JSONResponse (CardCategory.to_dict c) 200), db')
    /\ (forall request' w' u',
           find_User (dict_get (json_body request') "user_id") db' = Some u' ->
           get_card_category request' (CardCategory.id c) w' db' =
             (Ok (not_found "card category"), db'))
    /\ (forall w', delete_card_category request tt w' db' = (Ok (not_found "card category"), db'))
    /\ (forall request' w' u',
           find_User (dict_get (json_body request') "user_id") db' = Some u' ->
           forallb (present (json_body request')) ["category_id"; "name"; "color"] = true ->
           dict_get (json_body request') "category_id" =
             dict_get (json_body request) "category_id" ->
           update_card_category request' tt w' db' = (Ok (not_found "card category"), db')).
Proof.
  intros Hu Hc.
  assert (Hid : present (json_body request) "category_id" = true).
  { unfold present. rewrite (find_CardCategory_key _ _ _ Hc). reflexivity. }
  assert (Hgone : find_CardCategory (dict_get (json_body request) "category_id")
                                    (without_CardCategory c db) = None).
  { rewrite (find_CardCategory_key _ _ _ Hc). apply find_CardCategory_without. }
  assert (Hnone : forall w', get_CardCategory w' (dict_get (json_body request) "category_id")
                                             (without_CardCategory c db) = Returns None).
  { intros w'. revert Hgone. rewrite (find_CardCategory_key _ _ _ Hc), get_CardCategory_str.
    intros ->. reflexivity. }
  exists (without_CardCategory c db).
  split; [rewrite (delete_card_category_run request w db u Hu Hid),
            (get_CardCategory_found w _ _ _ Hc); reflexivity|].
  split; [|split].
  - intros request' w' u' Hu'.
    rewrite (get_card_category_run request' _ w' _ u' Hu'), find_CardCategory_without.
    reflexivity.
  - intros w'. rewrite (delete_card_category_run request w' _ u) by assumption.
    rewrite Hnone. reflexivity.
  - intros request' w' u' Hu' Hf E.
    rewrite (update_card_category_run request' w' _ u' Hu' Hf), E, Hnone. reflexivity.
Qed.

(** ** After a POST *)



(** ** What no route does to a record *)

Section TableInversion.
Context {R : Type} (key : R -> string).

Lemma find_replaced_inv (v : json) (x' r r' : R) (rows : list R) :
  List.find (fun y => col_eq (key y) v) rows = Some r ->
  List.find (fun y => col_eq (key y) v)
            (List.map (fun y => if String.eqb (key y) (key x') then x' else y) rows) = Some r' ->
  r' = r \/ (r' = x' /\ key r = key x').
Proof.
  intros H H'. rewrite (find_replaced key v x' rows), H in H'. simpl in H'.
  destruct (String.eqb (key r) (key x')) eqn:E; injection H' as <-; [right | left; reflexivity].
  apply String.eqb_eq in E. auto.
Qed.

Lemma find_replaced_None (v : json) (x' : R) (rows : list R) :
  List.find (fun y => col_eq (key y) v) rows = None ->
  List.find (fun y => col_eq (key y) v)
            (List.map (fun y => if String.eqb (key y) (key x') then x' else y) rows) = None.
Proof. intros H. rewrite (find_replaced key v x' rows), H. reflexivity. Qed.

Lemma find_deleted_inv (v : json) (k : string) (r' : R) (rows : list R) :
  List.find (fun y => col_eq (key y) v)
            (List.filter (fun y => negb (String.eqb (key y) k)) rows) = Some r' ->
  List.find (fun y => col_eq (key y) v) rows = Some r'.
Proof.
  induction rows as [|y rows IH]; simpl; [trivial|].
  destruct (String.eqb (key y) k) eqn:E; simpl.
  - intros H. pose proof (find_key key v _ _ H) as [Hv Hin].
    apply filter_In in Hin as [_ Hk]. apply negb_true_iff, String.eqb_neq in Hk.
    destruct (col_eq (key y) v) eqn:C; [|exact (IH H)].
    subst v. simpl in C. apply String.eqb_eq in C. apply String.eqb_eq in E. congruence.
  - destruct (col_eq (key y) v); [trivial | exact IH].
Qed.

Lemma find_added_inv (v : json) (x r' : R) (rows : list R) :
  List.find (fun y => col_eq (key y) v) rows = None ->
  List.find (fun y => col_eq (key y) v) (rows ++ [x]) = Some r' ->
  r' = x /\ v = JStr (key x).
Proof.
  induction rows as [|y rows IH]; simpl.
  - intros _. destruct (col_eq (key x) v) eqn:C; [|discriminate].
    intros [= <-]. split; [reflexivity|].
    destruct v; simpl in C; try discriminate. apply String.eqb_eq in C. congruence.
  - destruct (col_eq (key y) v); [discriminate | exact IH].
Qed.
Lemma find_replaced_target (v v0 : json) (x' r r' r0 : R) (rows : list R) :
  List.find (fun y => col_eq (key y) v) rows = Some r ->
  List.find (fun y => col_eq (key y) v)
            (List.map (fun y => if String.eqb (key y) (key x') then x' else y) rows) = Some r' ->
  List.find (fun y => col_eq (key y) v0) rows = Some r0 ->
  key x' = key r0 ->
  r' = r \/ (r' = x' /\ r = r0).
Proof.
  intros Hr Hr' Hr0 Hk.
  destruct (find_replaced_inv v x' r r' rows Hr Hr') as [->|[-> Hk']]; [left; reflexivity|].
  right. split; [reflexivity|].
  pose proof (find_key key _ _ _ Hr) as [Hv _].
  pose proof (find_key key _ _ _ Hr0) as [Hv0 _].
  assert (v = v0) as -> by congruence. congruence.
Qed.
End TableInversion.

Ltac unfold_tables :=
  unfold find_Card, find_CardCategory, find_User, put_Card, put_CardCategory, put_User,
    without_Card, without_CardCategory, without_User in *;
  simpl in *.

Ltac row_same :=
  let Hr := fresh "Hr" in
  let Hr' := fresh "Hr'" in
  intros ? ? ? Hr Hr'; unfold_tables; rewrite Hr in Hr'; injection Hr' as <-; auto.

Ltac row_added key :=
  let Hr := fresh "Hr" in
  let Hr' := fresh "Hr'" in
  intros ? ? ? Hr Hr'; unfold_tables;
  rewrite (find_added_frame key _ _ _ _ Hr) in Hr'; injection Hr' as <-; auto.

Ltac row_deleted key :=
  let Hr := fresh "Hr" in
  let Hr' := fresh "Hr'" in
  intros ? ? ? Hr Hr'; unfold_tables;
  apply (find_deleted_inv key) in Hr'; rewrite Hr in Hr'; injection Hr' as <-; auto.

Ltac row_replaced key x' Htarget :=
  let Hr := fresh "Hr" in
  let Hr' := fresh "Hr'" in
  intros ? ? ? Hr Hr'; unfold_tables;
  destruct (find_replaced_target key _ _ x' _ _ _ _ Hr Hr' Htarget eq_refl) as [->|[-> ->]];
  simpl; auto.

(** X16: no route changes the identity of a record that stays: whatever the
    route and the request, a card found under an id before and after has
    the same id, owner and creation time, and so has a category; a user has
    the same id and creation time. *)
Theorem no_route_changes_the_identity_of_a_record
    (hashpw : string -> string -> outside string) (e : endpoint)
    (request : Request) (w : World) (db : DB) :
  (forall v card card',
      find_Card v db = Some card ->
      find_Card v (snd (app hashpw e request w db)) = Some card' ->
      Card.id card' = Card.id card
      /\ Card.user_id card' = Card.user_id card
      /\ Card.created_at card' = Card.created_at card)
  /\ (forall v c c',
      find_CardCategory v db = Some c ->
      find_CardCategory v (snd (app hashpw e request w db)) = Some c' ->
      CardCategory.id c' = CardCategory.id c
      /\ CardCategory.user_id c' = CardCategory.user_id c
      /\ CardCategory.created_at c' = CardCategory.created_at c)
  /\ (forall v u u',
      find_User v db = Some u ->
      find_User v (snd (app hashpw e request w db)) = Some u' ->
      User.id u' = User.id u /\ User.created_at u' = User.created_at u).
Proof.
  destruct (app_cases hashpw e request w db)
    as [(d & H)|[(_ & H)|[(_ & what & H)|[(_ & _ & _ & H)|[(ext & H)|(c & db' & H & Hw)]]]]];
    rewrite H; simpl; try (split; [|split]; row_same).
  destruct e; simpl in Hw.
  - subst db'. split; [|split]; row_same.
  - destruct Hw as (plain & bytes & hash & _ & _ & _ & _ & ->).
    split; [|split]; [row_same | row_same | row_added User.id].
  - destruct Hw as (hash & u0 & Hl0 & ->).
    destruct (lookup_Some _ _ _ _ Hl0) as (s0 & _ & Hu0).
    remember (JStr s0) as v0 eqn:Ev0. clear Ev0 Hl0.
    split; [|split]; [row_same | row_same | row_replaced User.id
        (updated_User (json_body request) hash (world_now w) u0) Hu0].
  - destruct Hw as (u0 & _ & ->). split; [|split]; [row_same | row_same | row_deleted User.id].
  - subst db'. split; [|split]; row_same.
  - subst db'. split; [|split]; row_same.
  - destruct Hw as (u0 & k0 & _ & _ & _ & ->).
    split; [|split]; [row_added Card.id | row_same | row_same].
  - destruct Hw as (c0 & Hl0 & ->).
    destruct (lookup_Some _ _ _ _ Hl0) as (s0 & _ & Hc0).
    remember (JStr s0) as v0 eqn:Ev0. clear Ev0 Hl0.
    split; [|split];
      [ row_replaced Card.id (updated_Card (json_body request) (world_now w) c0) Hc0
      | row_same | row_same ].
  - destruct Hw as (c0 & _ & ->). split; [|split]; [row_deleted Card.id | row_same | row_same].
  - subst db'. split; [|split]; row_same.
  - subst db'. split; [|split]; row_same.
  - destruct Hw as (u0 & _ & _ & ->).
    split; [|split]; [row_same | row_added CardCategory.id | row_same].
  - destruct Hw as (k0 & Hl0 & ->).
    destruct (lookup_Some _ _ _ _ Hl0) as (s0 & _ & Hk0).
    remember (JStr s0) as v0 eqn:Ev0. clear Ev0 Hl0.
    split; [|split]; [row_same | row_replaced CardCategory.id
        (updated_CardCategory (json_body request) (world_now w) k0) Hk0 | row_same].
  - destruct Hw as (k0 & _ & ->).
    split; [|split]; [row_same | row_deleted CardCategory.id | row_same].
Qed.

Ltac no_row_same :=
  let Hr := fresh "Hr" in
  let Hr' := fresh "Hr'" in
  intros ? ? Hr Hr'; unfold_tables; rewrite Hr in Hr'; discriminate.

Ltac no_row_replaced key x' :=
  let Hr := fresh "Hr" in
  let Hr' := fresh "Hr'" in
  intros ? ? Hr Hr'; unfold_tables;
  discriminate (eq_trans (eq_sym Hr') (find_replaced_None key _ x' _ Hr)).

Ltac no_row_deleted key :=
  let Hr := fresh "Hr" in
  let Hr' := fresh "Hr'" in
  intros ? ? Hr Hr'; unfold_tables;
  apply (find_deleted_inv key) in Hr'; rewrite Hr in Hr'; discriminate.

Lemma lookup_User_Some w v db u :
  lookup_User w v db = Returns (Some u) -> find_User v db = Some u.
Proof.
  destruct v; try (unfold lookup_User; simpl; destruct (world_where w _); discriminate).
  rewrite lookup_User_str. intros [= H]. exact H.
Qed.

(** X17: a record appears under a new id only through the POST route of
    its table, under the id generated for the request, and a card or a
    category that appears belongs to the user the request names: no route
    creates a record for somebody else, and no PUT or DELETE creates one. *)
Theorem a_new_record_comes_from_a_POST_by_its_owner
    (hashpw : string -> string -> outside string) (e : endpoint)
    (request : Request) (w : World) (db : DB) :
  (forall v card',
      find_Card v db = None ->
      find_Card v (snd (app hashpw e request w db)) = Some card' ->
      e = POST_card /\ v = JStr (world_uuid w)
      /\ exists u, find_User (dict_get (json_body request) "user_id") db = Some u
                   /\ Card.user_id card' = User.id u)
  /\ (forall v c',
      find_CardCategory v db = None ->
      find_CardCategory v (snd (app hashpw e request w db)) = Some c' ->
      e = POST_card_category /\ v = JStr (world_uuid w)
      /\ exists u, find_User (dict_get (json_body request) "user_id") db = Some u
                   /\ CardCategory.user_id c' = User.id u)
  /\ (forall v u',
      find_User v db = None ->
      find_User v (snd (app hashpw e request w db)) = Some u' ->
      e = POST_user /\ v = JStr (world_uuid w)).
Proof.
  destruct (app_cases hashpw e request w db)
    as [(d & H)|[(_ & H)|[(_ & what & H)|[(_ & _ & _ & H)|[(ext & H)|(c & db' & H & Hw)]]]]];
    rewrite H; simpl; try (split; [|split]; no_row_same).
  destruct e; simpl in Hw.
  - subst db'. split; [|split]; no_row_same.
  - destruct Hw as (plain & bytes & hash & _ & _ & _ & _ & ->).
    split; [|split]; [no_row_same | no_row_same |].
    intros v u' Hr Hr'. unfold_tables.
    destruct (find_added_inv User.id _ _ _ _ Hr Hr') as [-> ->]. auto.
  - destruct Hw as (hash & u0 & _ & ->).
    split; [|split];
      [ no_row_same | no_row_same
      | no_row_replaced User.id
          (updated_User (json_body request) hash (world_now w) u0) ].
  - destruct Hw as (u0 & _ & ->).
    split; [|split]; [no_row_same | no_row_same | no_row_deleted User.id].
  - subst db'. split; [|split]; no_row_same.
  - subst db'. split; [|split]; no_row_same.
  - destruct Hw as (u0 & k0 & Hu0 & _ & _ & ->).
    pose proof (lookup_User_Some _ _ _ _ Hu0) as Hstr.
    split; [|split]; [| no_row_same | no_row_same].
    intros v card' Hr Hr'.
    assert (E : card' = new_Card (json_body request) w k0 u0 /\ v = JStr (world_uuid w)).
    { unfold find_Card in Hr, Hr'. simpl in Hr'.
      exact (find_added_inv Card.id _ _ _ _ Hr Hr'). }
    destruct E as [-> ->].
    split; [reflexivity|]. split; [reflexivity|]. exists u0. auto.
  - destruct Hw as (c0 & _ & ->).
    split; [|split];
      [ no_row_replaced Card.id (updated_Card (json_body request) (world_now w) c0)
      | no_row_same | no_row_same ].
  - destruct Hw as (c0 & _ & ->).
    split; [|split]; [no_row_deleted Card.id | no_row_same | no_row_same].
  - subst db'. split; [|split]; no_row_same.
  - subst db'. split; [|split]; no_row_same.
  - destruct Hw as (u0 & Hu0 & _ & ->).
    pose proof (lookup_User_Some _ _ _ _ Hu0) as Hstr.
    split; [|split]; [no_row_same | | no_row_same].
    intros v c' Hr Hr'.
    assert (E : c' = new_CardCategory (json_body request) w u0 /\ v = JStr (world_uuid w)).
    { unfold find_CardCategory in Hr, Hr'. simpl in Hr'.
      exact (find_added_inv CardCategory.id _ _ _ _ Hr Hr'). }
    destruct E as [-> ->].
    split; [reflexivity|]. split; [reflexivity|]. exists u0. auto.
  - destruct Hw as (k0 & _ & ->).
    split; [|split];
      [ no_row_same
      | no_row_replaced CardCategory.id
          (updated_CardCategory (json_body request) (world_now w) k0)
      | no_row_same ].
  - destruct Hw as (k0 & _ & ->).
    split; [|split]; [no_row_same | no_row_deleted CardCategory.id | no_row_same].
Qed.

(** ** After a PUT *)

(** X18: what a PUT returned with 200 is what the GET of the record then
    serves under the id the PUT returned: GET /card/{id} and
    GET /card-category/{id} to the owner of the record, whoever sent the
    PUT, and GET /user to a request whose user_id is the id of the user
    returned. *)
Theorem what_PUT_returned_is_what_GET_serves
    (hashpw : string -> string -> outside string)
    (request : Request) (w : World) (db : DB) :
  (forall c db',
      update_card request tt w db = (Ok (JSONResponse c 200), db') ->
      exists card,
        c = Card.to_dict card
        /\ json_member "id" c = Some (JStr (Card.id card))
        /\ forall request' w' owner,
             find_User (dict_get (json_body request') "user_id") db' = Some owner ->
             User.id owner = Card.user_id card ->
             get_card request' (Card.id card) w' db' = (Ok (JSONResponse c 200), db'))
  /\ (forall c db',
      update_card_category request tt w db = (Ok (JSONResponse c 200), db') ->
      exists k,
        c = CardCategory.to_dict k
        /\ json_member "id" c = Some (JStr (CardCategory.id k))
        /\ forall request' w' owner,
             find_User (dict_get (json_body request') "user_id") db' = Some owner ->
             User.id owner = CardCategory.user_id k ->
             get_card_category request' (CardCategory.id k) w' db' =
               (Ok (JSONResponse c 200), db'))
  /\ (forall c db',
      update_user hashpw request tt w db = (Ok (JSONResponse c 200), db') ->
      exists user,
        c = User.to_dict user
        /\ json_member "id" c = Some (JStr (User.id user))
        /\ forall request' w',
             json_body request' !! "user_id" = Some (JStr (User.id user)) ->
             get_user request' tt w' db' = (Ok (JSONResponse c 200), db')).
Proof.
  split; [|split].
  - intros c db' Hrun.
    destruct (protected_cases ["id"; "status"; "title"; "category_id"] update_card_fn
                              request tt w db)
      as [(d & H)|[(kind & H)|(u & Hp & Hu & Hf & _)]];
      try (unfold update_card in Hrun; rewrite H in Hrun; discriminate).
    rewrite (update_card_any request w db u Hp Hu Hf) in Hrun.
    destruct (get_Card w _ db) as [[card|]|kind] eqn:Hl; try discriminate.
    injection Hrun as <- <-.
    destruct (lookup_Some _ _ _ _ Hl) as (s & _ & Hc).
    exists (updated_Card (json_body request) (world_now w) card).
    split; [reflexivity|]. split; [reflexivity|].
    intros request' w' owner Ho Hown.
    rewrite (get_card_run request' _ w' _ owner Ho).
    assert (Hfound : find_Card (JStr (Card.id card))
                       (put_Card (updated_Card (json_body request) (world_now w) card) db)
                     = Some (updated_Card (json_body request) (world_now w) card)).
    { apply (find_Card_put _ _ card); [|reflexivity].
      rewrite <- (find_Card_key _ _ _ Hc). exact Hc. }
    simpl. rewrite Hfound. simpl. simpl in Hown. rewrite <- Hown, String.eqb_refl. reflexivity.
  - intros c db' Hrun.
    destruct (protected_cases ["category_id"; "name"; "color"] update_card_category_fn
                              request tt w db)
      as [(d & H)|[(kind & H)|(u & Hp & Hu & Hf & _)]];
      try (unfold update_card_category in Hrun; rewrite H in Hrun; discriminate).
    rewrite (update_card_category_any request w db u Hp Hu Hf) in Hrun.
    destruct (get_CardCategory w _ db) as [[k|]|kind] eqn:Hl; try discriminate.
    injection Hrun as <- <-.
    destruct (lookup_Some _ _ _ _ Hl) as (s & _ & Hc).
    exists (updated_CardCategory (json_body request) (world_now w) k).
    split; [reflexivity|]. split; [reflexivity|].
    intros request' w' owner Ho Hown.
    rewrite (get_card_category_run request' _ w' _ owner Ho).
    assert (Hfound : find_CardCategory (JStr (CardCategory.id k))
                       (put_CardCategory
                          (updated_CardCategory (json_body request) (world_now w) k) db)
                     = Some (updated_CardCategory (json_body request) (world_now w) k)).
    { apply (find_CardCategory_put _ _ k); [|reflexivity].
      rewrite <- (find_CardCategory_key _ _ _ Hc). exact Hc. }
    simpl. rewrite Hfound. simpl. simpl in Hown. rewrite <- Hown, String.eqb_refl. reflexivity.
  - intros c db' Hrun.
    destruct (protected_cases ["name"; "password"; "email"] (update_user_fn hashpw)
                              request tt w db)
      as [(d & H)|[(kind & H)|(u & Hp & Hu & Hf & _)]];
      try (unfold update_user in Hrun; rewrite H in Hrun; discriminate).
    rewrite (update_user_any hashpw request w db u Hp Hu Hf) in Hrun.
    destruct (dict_get (json_body request) "password") as [| | |plain| |]; try discriminate.
    destruct (world_encode w plain) as [bytes|kind]; [|discriminate].
    destruct (hashpw bytes (world_salt w)) as [hash|kind]; [|discriminate].
    injection Hrun as <- <-.
    destruct (lookup_Some _ _ _ _ Hu) as (s & _ & Hs).
    exists (updated_User (json_body request) hash (world_now w) u).
    split; [reflexivity|]. split; [reflexivity|].
    intros request' w' Hid. apply get_user_run.
    unfold dict_get. rewrite Hid. simpl.
    apply (find_User_put _ _ u); [|reflexivity].
    rewrite <- (proj1 (find_key User.id _ _ _ Hs)). exact Hs.
Qed.

(** ** The decorators stacked *)

Lemma check_fields_app body xs ys w db :
  check_fields body (xs ++ ys) w db =
    match check_fields body xs w db with
    | (Ok _, db') => check_fields body ys w db'
    | (Raise e, db') => (Raise e, db')
    end.
Proof.
  induction xs as [|x xs IH]; simpl; [reflexivity|].
  destruct (is_None (dict_get body x)); [reflexivity | exact IH].
Qed.

(** X19: stacking two required-fields checks is one check of the two lists
    in a row: the fields of the outer decorator are looked at first, in
    their order, then those of the inner one. *)
Theorem required_fields_stacked {A : Type} (outer inner : list string) (function : handler A)
    (request : Request) (args : A) (w : World) (db : DB) :
  required_fields outer (required_fields inner function) request args w db =
  required_fields (outer ++ inner) function request args w db.
Proof.
  unfold required_fields, bind, request_json, ret. rewrite check_fields_app.
  destruct (check_fields (json_body request) outer w db) as [[[]|e] db']; reflexivity.
Qed.

(** ** Primary keys over a run of requests *)

Lemma serve_keeps_unique_ids hashpw requests db :
  unique_ids db -> unique_ids (serve hashpw requests db).
Proof.
  revert db. induction requests as [|[[e request] w] rest IH]; intros db H; simpl; [exact H|].
  apply IH, app_keeps_unique_ids, H.
Qed.

(** X20: the primary keys stay unique: a route leaves a store with unique
    primary keys in a store with unique primary keys, whatever the request
    and however it ends, and so does every sequence of requests; in
    particular every store reached from the empty one has unique primary
    keys. *)
Theorem the_primary_keys_stay_unique
    (hashpw : string -> string -> outside string)
    (requests : list (endpoint * Request * World)) :
  (forall e request w db,
      unique_ids db -> unique_ids (snd (app hashpw e request w db)))
  /\ (forall db, unique_ids db -> unique_ids (serve hashpw requests db))
  /\ unique_ids (serve hashpw requests (mkDB [] [] [])).
Proof.
  split; [|split].
  - intros e request w db. apply app_keeps_unique_ids.
  - intros db. apply serve_keeps_unique_ids.
  - apply serve_keeps_unique_ids. repeat split; constructor.
Qed.

(** * The remaining routes on the sample data *)

Lemma Scenario_board_unique_ids : unique_ids Scenario.board.
Proof. repeat split; apply (bool_decide_unpack _); vm_compute; reflexivity. Qed.

Lemma Sample_db_unique_ids : unique_ids Sample.db.
Proof. repeat split; apply (bool_decide_unpack _); vm_compute; reflexivity. Qed.

(** With the sample libraries, a card named by a list of its id and a
    category named by an object are found, and a user_id that is a number is
    left to the database, which raises: none of the three is answered as a
    string naming no record would be. *)
Lemma ids_that_are_not_strings :
  find_Card (dict_get (json_body Scenario.put_card_by_key_tuple) "id") Sample.db = None
  /\ http_status (fst (update_card Scenario.put_card_by_key_tuple tt Sample.world Sample.db))
     = 200
  /\ find_CardCategory (dict_get (json_body Scenario.post_card_by_attribute) "category_id")
                       Sample.db = None
  /\ http_status (fst (create_card Scenario.post_card_by_attribute tt Sample.world Sample.db))
     = 200
  /\ find_User (dict_get (json_body Scenario.as_a_number) "user_id") Sample.db = None
  /\ app Sample.hashpw GET_user Scenario.as_a_number Sample.world Sample.db =
       (Raise (External "ProgrammingError"), Sample.db).
Proof. repeat split; vm_compute; reflexivity. Qed.

Lemma an_error_leaves_the_store_as_it_was_witness :
  http_status (fst (app Sample.hashpw (GET_card_id "c-task") Sample.as_bob
                        Sample.world Sample.db)) = 404
  /\ snd (app Sample.hashpw (GET_card_id "c-task") Sample.as_bob Sample.world Sample.db)
     = Sample.db.
Proof.
  assert (H : http_status (fst (app Sample.hashpw (GET_card_id "c-task") Sample.as_bob
                                    Sample.world Sample.db)) = 404)
    by (vm_compute; reflexivity).
  split; [exact H|].
  apply an_error_leaves_the_store_as_it_was. rewrite H. discriminate.
Defined.

Lemma the_unhandled_exceptions_witness :
  fst (app Sample.hashpw POST_user Sample.post_user_numeric_password Sample.world Sample.db)
    = Raise (Exception "AttributeError")
  /\ is_str (dict_get (json_body Sample.post_user_numeric_password) "password") = false.
Proof.
  assert (H : fst (app Sample.hashpw POST_user Sample.post_user_numeric_password
                       Sample.world Sample.db) = Raise (Exception "AttributeError"))
    by (vm_compute; reflexivity).
  split; [exact H|].
  exact (proj2 (proj2 (proj2 (the_unhandled_exceptions Sample.hashpw POST_user
                                Sample.post_user_numeric_password Sample.world Sample.db
                                "AttributeError" H)))).
Defined.

Lemma a_GET_never_writes_witness :
  is_GET GET_card = true
  /\ snd (app Sample.hashpw GET_card Sample.as_ann Sample.world Sample.db) = Sample.db.
Proof.
  split; [reflexivity|]. apply a_GET_never_writes. reflexivity.
Defined.

Lemma a_route_writes_its_own_table_witness :
  users (snd (app Sample.hashpw POST_card Sample.post_card Sample.world Sample.db))
    = users Sample.db
  /\ card_categories (snd (app Sample.hashpw POST_card Sample.post_card Sample.world Sample.db))
     = card_categories Sample.db.
Proof.
  apply (proj1 (a_route_writes_its_own_table Sample.hashpw POST_card Sample.post_card
                  Sample.world Sample.db)).
  left. reflexivity.
Defined.

Lemma a_PUT_keeps_the_number_of_rows_witness :
  length (users (snd (app Sample.hashpw PUT_card Sample.put_card Sample.world Sample.db)))
    = length (users Sample.db)
  /\ length (card_categories
               (snd (app Sample.hashpw PUT_card Sample.put_card Sample.world Sample.db)))
     = length (card_categories Sample.db)
  /\ length (cards (snd (app Sample.hashpw PUT_card Sample.put_card Sample.world Sample.db)))
     = length (cards Sample.db).
Proof.
  apply a_PUT_keeps_the_number_of_rows. right. left. reflexivity.
Defined.

Lemma the_collections_list_the_rows_of_the_caller_witness :
  find_User (dict_get (json_body Sample.as_ann) "user_id") Scenario.board = Some Sample.ann
  /\ exists rows,
      get_cards Sample.as_ann tt Sample.world Scenario.board =
        (Ok (JSONResponse (JArr (List.map Card.to_dict rows)) 200), Scenario.board)
      /\ In Sample.task rows /\ In Scenario.essay rows /\ ~ In Scenario.errand rows.
Proof.
  assert (H : find_User (dict_get (json_body Sample.as_ann) "user_id") Scenario.board
              = Some Sample.ann) by (vm_compute; reflexivity).
  split; [exact H|].
  destruct (proj1 (the_collections_list_the_rows_of_the_caller
                     Sample.as_ann Sample.world Scenario.board Sample.ann H))
    as (rows & Hrun & Hrows & _).
  exists rows. split; [exact Hrun|]. split; [|split].
  - apply Hrows. split; [left; reflexivity | reflexivity].
  - apply Hrows. split; [right; right; left; reflexivity | reflexivity].
  - intros Hin. apply Hrows in Hin as [_ Hown]. discriminate Hown.
Defined.

Lemma the_collection_agrees_with_the_lookup_by_id_witness :
  find_User (dict_get (json_body Sample.as_ann) "user_id") Scenario.board = Some Sample.ann
  /\ unique_ids Scenario.board
  /\ exists rows,
      get_cards Sample.as_ann tt Sample.world Scenario.board =
        (Ok (JSONResponse (JArr (List.map Card.to_dict rows)) 200), Scenario.board)
      /\ In Scenario.essay rows.
Proof.
  assert (H : find_User (dict_get (json_body Sample.as_ann) "user_id") Scenario.board
              = Some Sample.ann) by (vm_compute; reflexivity).
  split; [exact H|]. split; [exact Scenario_board_unique_ids|].
  destruct (proj1 (the_collection_agrees_with_the_lookup_by_id
                     Sample.as_ann Sample.world Scenario.board Sample.ann H
                     Scenario_board_unique_ids))
    as (rows & Hrun & Hrows).
  exists rows. split; [exact Hrun|].
  apply (Hrows Scenario.essay); [right; right; left; reflexivity | vm_compute; reflexivity].
Defined.

Lemma get_user_serves_the_caller_their_own_record_witness :
  find_User (dict_get (json_body Sample.as_ann) "user_id") Sample.db = Some Sample.ann
  /\ get_user Sample.as_ann tt Sample.world Sample.db =
       (Ok (JSONResponse (User.to_dict Sample.ann) 200), Sample.db).
Proof.
  assert (H : find_User (dict_get (json_body Sample.as_ann) "user_id") Sample.db
              = Some Sample.ann) by (vm_compute; reflexivity).
  split; [exact H|].
  apply (proj1 (get_user_serves_the_caller_their_own_record
                  Sample.as_ann Sample.world Sample.db) Sample.ann H).
Defined.

Lemma delete_user_then_the_user_id_is_refused_witness :
  find_User (dict_get (json_body Scenario.delete_user) "user_id") Sample.db = Some Sample.bob
  /\ exists db',
      delete_user Scenario.delete_user tt Sample.world Sample.db =
        (Ok (JSONResponse (User.to_dict Sample.bob) 200), db')
      /\ app Sample.hashpw GET_card Sample.as_bob Sample.world db' =
           (Raise (HTTPException 400 "invalid user_id"), db')
      /\ find_User (JStr "u-ann") db' = Some Sample.ann.
Proof.
  assert (H : find_User (dict_get (json_body Scenario.delete_user) "user_id") Sample.db
              = Some Sample.bob) by (vm_compute; reflexivity).
  split; [exact H|].
  destruct (delete_user_then_the_user_id_is_refused Sample.hashpw Scenario.delete_user
              Sample.world Sample.db Sample.bob H) as (db' & Hrun & Hrefused & Hothers).
  exists db'. split; [exact Hrun|]. split.
  - apply Hrefused; [discriminate | vm_compute; reflexivity].
  - rewrite Hothers; [vm_compute; reflexivity | vm_compute; discriminate].
Defined.

Lemma a_repeated_GET_or_PUT_changes_nothing_witness :
  http_status (fst (app Sample.hashpw PUT_card Sample.put_card Sample.world Sample.db)) = 200
  /\ app Sample.hashpw PUT_card Sample.put_card Sample.world
         (snd (app Sample.hashpw PUT_card Sample.put_card Sample.world Sample.db)) =
     app Sample.hashpw PUT_card Sample.put_card Sample.world Sample.db.
Proof.
  split; [vm_compute; reflexivity|].
  apply a_repeated_GET_or_PUT_changes_nothing. right. right. left. reflexivity.
Defined.

Lemma a_deleted_card_is_gone_witness :
  find_User (dict_get (json_body Sample.delete_card) "user_id") Sample.db = Some Sample.bob
  /\ find_Card (dict_get (json_body Sample.delete_card) "id") Sample.db = Some Sample.task
  /\ exists db',
      delete_card Sample.delete_card tt Sample.world Sample.db =
        (Ok (JSONResponse (Card.to_dict Sample.task) 200), db')
      /\ delete_card Sample.delete_card tt Sample.world db' = (Ok (not_found "card"), db').
Proof.
  assert (H : find_User (dict_get (json_body Sample.delete_card) "user_id") Sample.db
              = Some Sample.bob) by (vm_compute; reflexivity).
  assert (Hc : find_Card (dict_get (json_body Sample.delete_card) "id") Sample.db
               = Some Sample.task) by (vm_compute; reflexivity).
  split; [exact H|]. split; [exact Hc|].
  destruct (a_deleted_card_is_gone Sample.delete_card Sample.world Sample.db
              Sample.bob Sample.task H Hc) as (db' & Hrun & Hagain & _).
  exists db'. split; [exact Hrun | apply Hagain].
Defined.

Lemma a_deleted_category_is_gone_witness :
  find_User (dict_get (json_body Sample.delete_category) "user_id") Sample.db = Some Sample.bob
  /\ find_CardCategory (dict_get (json_body Sample.delete_category) "category_id") Sample.db
     = Some Sample.todo
  /\ exists db',
      delete_card_category Sample.delete_category tt Sample.world Sample.db =
        (Ok (JSONResponse (CardCategory.to_dict Sample.todo) 200), db')
      /\ get_card_category Sample.as_ann "k-todo" Sample.world db' =
           (Ok (not_found "card category"), db').
Proof.
  assert (H : find_User (dict_get (json_body Sample.delete_category) "user_id") Sample.db
              = Some Sample.bob) by (vm_compute; reflexivity).
  assert (Hc : find_CardCategory (dict_get (json_body Sample.delete_category) "category_id")
                                 Sample.db = Some Sample.todo) by (vm_compute; reflexivity).
  split; [exact H|]. split; [exact Hc|].
  destruct (a_deleted_category_is_gone Sample.delete_category Sample.world Sample.db
              Sample.bob Sample.todo H Hc) as (db' & Hrun & Hget & _).
  exists db'. split; [exact Hrun|].
  apply (Hget Sample.as_ann Sample.world Sample.ann).
  inversion Hrun. vm_compute. reflexivity.
Defined.



Lemma no_route_changes_the_identity_of_a_record_witness :
  find_Card (JStr "c-task") Sample.db = Some Sample.task
  /\ exists card',
      find_Card (JStr "c-task")
                (snd (app Sample.hashpw PUT_card Sample.put_card Sample.world Sample.db))
        = Some card'
      /\ Card.title card' = JStr "Rewrite"
      /\ Card.id card' = "c-task"
      /\ Card.user_id card' = "u-ann"
      /\ Card.created_at card' = 4.
Proof.
  assert (H : find_Card (JStr "c-task") Sample.db = Some Sample.task)
    by (vm_compute; reflexivity).
  split; [exact H|].
  eexists. split; [vm_compute; reflexivity|]. split; [reflexivity|].
  refine (proj1 (no_route_changes_the_identity_of_a_record Sample.hashpw PUT_card
                   Sample.put_card Sample.world Sample.db)
                (JStr "c-task") Sample.task _ H _).
  vm_compute. reflexivity.
Defined.

Lemma a_new_record_comes_from_a_POST_by_its_owner_witness :
  find_Card (JStr "fresh-id") Sample.db = None
  /\ exists card',
      find_Card (JStr "fresh-id")
                (snd (app Sample.hashpw POST_card Sample.post_card Sample.world Sample.db))
        = Some card'
      /\ exists u,
          find_User (dict_get (json_body Sample.post_card) "user_id") Sample.db = Some u
          /\ Card.user_id card' = User.id u.
Proof.
  assert (H : find_Card (JStr "fresh-id") Sample.db = None) by (vm_compute; reflexivity).
  split; [exact H|].
  eexists. split; [vm_compute; reflexivity|].
  refine (proj2 (proj2 (proj1 (a_new_record_comes_from_a_POST_by_its_owner
                                 Sample.hashpw POST_card Sample.post_card
                                 Sample.world Sample.db)
                              (JStr "fresh-id") _ H _))).
  vm_compute. reflexivity.
Defined.

Lemma what_PUT_returned_is_what_GET_serves_witness :
  exists c db',
    update_card Sample.put_card tt Sample.world Sample.db = (Ok (JSONResponse c 200), db')
    /\ get_card Sample.as_ann "c-task" Sample.world db' = (Ok (JSONResponse c 200), db').
Proof.
  pose (card0 := Card.mk "c-task" (JStr "Rewrite") JNull (JStr "done") (JStr "k-todo")
                         "u-ann" 4 9).
  assert (Hrun : update_card Sample.put_card tt Sample.world Sample.db =
                   (Ok (JSONResponse (Card.to_dict card0) 200), put_Card card0 Sample.db))
    by (vm_compute; reflexivity).
  exists (Card.to_dict card0), (put_Card card0 Sample.db). split; [exact Hrun|].
  destruct (proj1 (what_PUT_returned_is_what_GET_serves Sample.hashpw Sample.put_card
                     Sample.world Sample.db) _ _ Hrun) as (card & Hc & _ & Hget).
  injection Hc as Hid _ _ _ _ Howner _ _.
  pose proof (Hget Sample.as_ann Sample.world Sample.ann) as G.
  rewrite <- Hid in G. apply G; [vm_compute; reflexivity | exact Howner].
Defined.

Lemma the_primary_keys_stay_unique_witness :
  unique_ids Sample.db
  /\ unique_ids (serve Sample.hashpw
                       [(POST_card, Sample.post_card, Sample.world);
                        (DELETE_card, Sample.delete_card, Sample.world);
                        (PUT_user, Sample.put_user, Sample.world)]
                       Sample.db).
Proof.
  split; [exact Sample_db_unique_ids|].
  apply (proj1 (proj2 (the_primary_keys_stay_unique Sample.hashpw _))).
  exact Sample_db_unique_ids.
Defined.
